(** * Flashy (Urdu flashcards): the learning store of [main.py]

    A shallow embedding of the bookkeeping of [FlashcardApp]: the list of
    words still to learn, the single undo slot, the session counters and the
    progress file, together with the widget values the methods write.

    Conventions of the embedding.
    - A vocabulary row is a Python [dict] from column name to cell.  Cells are
      the text cells of the table; dict equality is equality of the finite
      maps.  Cells that pandas would read back as numbers or as missing values
      are outside the model.
    - pandas is a collaborator, not part of the program: [to_csv] and
      [read_csv] are the operations of the class [Pandas], and whatever a
      statement needs to know about them is a hypothesis of that statement.
    - Python integers are [Z].  The percentage is a Python float:
      [_get_progress_text_float] computes it in binary64, the arithmetic of
      the program; the labels and the bar carry the same expression as an
      exact rational of [Q], which is enough to say that they show the
      figures of the object.
    - [random.choice] consumes one draw of the generator, an argument of the
      methods that sample.
    - Dialog boxes and console output are appended to a log in the world. *)

From Stdlib Require Import ZArith QArith Lia PrimFloat.
From stdpp Require Import base option list gmap strings.

Open Scope Z_scope.

(** ** Rows and exceptions *)

Abbreviation VocabItem := (gmap string string).

(** [len(l)] *)
Definition len {A} (l : list A) : Z := Z.of_nat (length l).

(** Truth value of a dict: [{}] is false. *)
Definition truthy (d : VocabItem) : bool := bool_decide (d ≠ ∅).

(** Truth value of [None]-or-dict. *)
Definition truthy_opt (o : option VocabItem) : bool :=
  match o with
  | Some d => truthy d
  | None => false
  end.

(** [d.get(key, "")] *)
Definition get (d : VocabItem) (key : string) : string := default "" (d !! key).

(** [x in l] *)
Definition contains (x : VocabItem) (l : list VocabItem) : bool :=
  bool_decide (x ∈ l).

(** [l.remove(x)]: deletes the first element equal to [x]; [None] stands for
    the [ValueError] raised when there is none. *)
Fixpoint remove (x : VocabItem) (l : list VocabItem) : option (list VocabItem) :=
  match l with
  | [] => None
  | y :: l' =>
      if decide (y = x) then Some l'
      else cons y <$> remove x l'
  end.

(** [random.choice(l)] on the draw [draw] of the generator; [None] stands for
    the [IndexError] raised on an empty list. *)
Definition choice {A} (draw : nat) (l : list A) : option A :=
  match l with
  | [] => None
  | _ => l !! (draw mod length l)%nat
  end.
Arguments choice : simpl never.

Inductive Exception := Exc (msg : string).

#[global] Instance Exception_eq_dec : EqDecision Exception.
Proof. solve_decision. Defined.

(** What [read_csv] raises on a file without a header line: a file of zero
    bytes, or of blank lines only. *)
Definition EmptyDataError : Exception := Exc "No columns to parse from file".

Inductive Result (A : Type) :=
| Return (a : A)
| Raise (e : Exception).
Arguments Return {A} a.
Arguments Raise {A} e.

#[global] Instance Result_ret : MRet Result := λ A a, Return a.
#[global] Instance Result_bind : MBind Result := λ A B f m,
  match m with
  | Return a => f a
  | Raise e => Raise e
  end.

(** ** pandas *)

Class Pandas := {
  (** what a file holds *)
  Content : Type;
  (** [pd.DataFrame(records).to_csv(path, index=False)]: the content written *)
  to_csv : list VocabItem → Content;
  (** [pd.read_csv(path)], seen through [to_dict(orient="records")], or the
      exception it raises; the length of the list is [len(data)] *)
  read_csv : Content → Result (list VocabItem)
}.

(** An assumption on pandas, never a fact of the model: the list is read
    back as it was written.  pandas infers the type of a column when it reads
    it, so this holds of a table only when no text cell is read back as a
    number, a truth value or a missing value.  A frame built from the empty
    list has no column, [to_csv] writes a blank header line for it, and
    [read_csv] raises [EmptyDataError] on such a file. *)
Definition csv_faithful `{Pandas} (l : list VocabItem) : Prop :=
  match l with
  | [] => ∃ e, read_csv (to_csv []) = Raise e
  | _ => read_csv (to_csv l) = Return l
  end.

(** ** The world outside the object *)

Inductive Event :=
| DataNotFound                      (* showwarning "Data Not Found" *)
| LoadFailed (e : Exception)        (* showerror "Failed to load data: ..." *)
| SaveFailed (e : Exception)        (* print "Error saving progress: ..." *)
| ResetFailed (e : Exception)       (* showerror "Failed to reset: ..." *)
| ResetDone                         (* showinfo "Progress has been reset!" *)
| UndoDone                          (* showinfo "Last word restored ..." *)
| Congratulations (total learned : Z).  (* showinfo of the completion message *)

Record World `{Pandas} := mkWorld {
  PROGRESS_FILE : option Content;   (* data/words_to_learn.csv, if it exists *)
  ORIGINAL_FILE : option Content;   (* data/urdu_words.csv, if it exists *)
  denied : option Exception;        (* set: writing is refused, see below *)
  shown : list Event                (* dialogs and prints so far *)
}.
Arguments mkWorld {_} _ _ _ _.

Section World.
Context `{Pandas}.

Definition say (ev : Event) (w : World) : World :=
  {| PROGRESS_FILE := PROGRESS_FILE w; ORIGINAL_FILE := ORIGINAL_FILE w;
     denied := denied w; shown := shown w ++ [ev] |}.

(** [Config.DATA_DIR.mkdir(parents=True, exist_ok=True)] followed by
    [df.to_csv(Config.PROGRESS_FILE, index=False)].  With [denied] set the
    directory cannot be made or the file cannot be opened for writing
    ([PermissionError] and the like): the exception is raised before a byte
    is written and the file stays as it was.  An error in the middle of a
    write, which would leave a cut file behind, is not among the outcomes. *)
Definition write_progress (c : Content) (w : World) : Result World :=
  match denied w with
  | Some e => Raise e
  | None =>
      Return {| PROGRESS_FILE := Some c; ORIGINAL_FILE := ORIGINAL_FILE w;
                denied := denied w; shown := shown w |}
  end.

(** [Config.PROGRESS_FILE.unlink()], called on an existing file *)
Definition unlink_progress (w : World) : Result World :=
  match denied w with
  | Some e => Raise e
  | None =>
      Return {| PROGRESS_FILE := None; ORIGINAL_FILE := ORIGINAL_FILE w;
                denied := denied w; shown := shown w |}
  end.

(** The built-in demo rows of [_load_data]. *)
Definition demo_data : list VocabItem :=
  [ list_to_map [("Urdu", "سلام"); ("English", "Hello")];
    list_to_map [("Urdu", "شکریہ"); ("English", "Thank you")];
    list_to_map [("Urdu", "پانی"); ("English", "Water")] ].

(** The body of the [try] of [_load_data]. *)
Definition _load_data_try (w : World) : Result (list VocabItem * World) :=
  saved ← match PROGRESS_FILE w with
          | Some f =>
              data ← read_csv f;
              if 0 <? len data then mret (Some data) else mret None
          | None => mret None
          end;
  match saved with
  | Some data => mret (data, w)
  | None =>
      match ORIGINAL_FILE w with
      | Some f =>
          original_data ← read_csv f;
          mret (original_data, w)
      | None => mret (demo_data, say DataNotFound w)
      end
  end.

(** [FlashcardApp._load_data] *)
Definition _load_data (w : World) : list VocabItem * World :=
  match _load_data_try w with
  | Return r => r
  | Raise e => ([], say (LoadFailed e) w)
  end.

End World.

(** ** The object *)

Inductive Title := NoTitle | TitleUrdu | TitleEnglish | TitleCongratulations.

(** The widgets the methods write to: label texts, the progress bar variable,
    the state of the undo button and the two text items of the canvas. *)
Record Widgets := mkWidgets {
  progress_label : Z * Z * Q;    (* learned, total, percentage of the text *)
  progress_var : Q;
  stats_label : Z;               (* "Session: n cards learned" *)
  undo_button : bool;            (* NORMAL is true, DISABLED is false *)
  card_title : Title;
  card_word : string
}.

Record FlashcardApp := mkApp {
  current_card : VocabItem;
  flip_timer : bool;             (* an auto-flip callback is pending *)
  cards_learned_today : Z;
  is_flipped : bool;
  auto_flip_enabled : bool;
  to_learn : list VocabItem;
  original_count : Z;
  last_removed : option VocabItem;
  ui : Widgets
}.

Definition set_current_card (v : VocabItem) (s : FlashcardApp) : FlashcardApp :=
  mkApp v (flip_timer s) (cards_learned_today s) (is_flipped s)
        (auto_flip_enabled s) (to_learn s) (original_count s) (last_removed s) (ui s).

Definition set_flip_timer (v : bool) (s : FlashcardApp) : FlashcardApp :=
  mkApp (current_card s) v (cards_learned_today s) (is_flipped s)
        (auto_flip_enabled s) (to_learn s) (original_count s) (last_removed s) (ui s).

Definition set_cards_learned_today (v : Z) (s : FlashcardApp) : FlashcardApp :=
  mkApp (current_card s) (flip_timer s) v (is_flipped s)
        (auto_flip_enabled s) (to_learn s) (original_count s) (last_removed s) (ui s).

Definition set_is_flipped (v : bool) (s : FlashcardApp) : FlashcardApp :=
  mkApp (current_card s) (flip_timer s) (cards_learned_today s) v
        (auto_flip_enabled s) (to_learn s) (original_count s) (last_removed s) (ui s).

Definition set_auto_flip_enabled (v : bool) (s : FlashcardApp) : FlashcardApp :=
  mkApp (current_card s) (flip_timer s) (cards_learned_today s) (is_flipped s)
        v (to_learn s) (original_count s) (last_removed s) (ui s).

Definition set_to_learn (v : list VocabItem) (s : FlashcardApp) : FlashcardApp :=
  mkApp (current_card s) (flip_timer s) (cards_learned_today s) (is_flipped s)
        (auto_flip_enabled s) v (original_count s) (last_removed s) (ui s).

Definition set_original_count (v : Z) (s : FlashcardApp) : FlashcardApp :=
  mkApp (current_card s) (flip_timer s) (cards_learned_today s) (is_flipped s)
        (auto_flip_enabled s) (to_learn s) v (last_removed s) (ui s).

Definition set_last_removed (v : option VocabItem) (s : FlashcardApp) : FlashcardApp :=
  mkApp (current_card s) (flip_timer s) (cards_learned_today s) (is_flipped s)
        (auto_flip_enabled s) (to_learn s) (original_count s) v (ui s).

Definition set_ui (v : Widgets) (s : FlashcardApp) : FlashcardApp :=
  mkApp (current_card s) (flip_timer s) (cards_learned_today s) (is_flipped s)
        (auto_flip_enabled s) (to_learn s) (original_count s) (last_removed s) v.

Definition set_progress_label (v : Z * Z * Q) (u : Widgets) : Widgets :=
  mkWidgets v (progress_var u) (stats_label u) (undo_button u) (card_title u) (card_word u).

Definition set_progress_var (v : Q) (u : Widgets) : Widgets :=
  mkWidgets (progress_label u) v (stats_label u) (undo_button u) (card_title u) (card_word u).

Definition set_stats_label (v : Z) (u : Widgets) : Widgets :=
  mkWidgets (progress_label u) (progress_var u) v (undo_button u) (card_title u) (card_word u).

Definition set_undo_button (v : bool) (u : Widgets) : Widgets :=
  mkWidgets (progress_label u) (progress_var u) (stats_label u) v (card_title u) (card_word u).

Definition set_card_text (t : Title) (word : string) (u : Widgets) : Widgets :=
  mkWidgets (progress_label u) (progress_var u) (stats_label u) (undo_button u) t word.

(** ** Progress figures *)

(** [learned / total * 100] *)
Definition percent (learned total : Z) : Q :=
  (inject_Z learned / inject_Z total * 100)%Q.

(** The three numbers [_get_progress_text] formats: [learned], [total] and
    [percentage]. *)
Definition _get_progress_text (s : FlashcardApp) : Z * Z * Q :=
  let total := original_count s in
  let remaining := len (to_learn s) in
  let learned := total - remaining in
  let percentage := if 0 <? total then percent learned total else 0%Q in
  (learned, total, percentage).

(** [float(n)] for a Python integer: exact below 2^53, and no list in
    memory is longer than that. *)
Fixpoint float_of_pos (p : positive) : float :=
  match p with
  | xH => 1%float
  | xO p' => (2 * float_of_pos p')%float
  | xI p' => (2 * float_of_pos p' + 1)%float
  end.

Definition float_of_Z (z : Z) : float :=
  match z with
  | Z0 => 0%float
  | Zpos p => float_of_pos p
  | Zneg p => (- float_of_pos p)%float
  end.

(** [learned / total * 100] as Python evaluates it: the true division of two
    integers is the binary64 quotient of their floats, and the product with
    [100] is a binary64 product. *)
Definition percent_float (learned total : Z) : float :=
  (float_of_Z learned / float_of_Z total * 100)%float.

(** [_get_progress_text] with the percentage in the arithmetic of the
    program.  The integer [0] of the [else] is written [0.0] by the format
    of the text, as the float is. *)
Definition _get_progress_text_float (s : FlashcardApp) : Z * Z * float :=
  let total := original_count s in
  let remaining := len (to_learn s) in
  let learned := total - remaining in
  let percentage := if 0 <? total then percent_float learned total else 0%float in
  (learned, total, percentage).

(** [FlashcardApp._update_progress_bar] *)
Definition _update_progress_bar (s : FlashcardApp) : FlashcardApp :=
  if 0 <? original_count s then
    let learned := original_count s - len (to_learn s) in
    set_ui (set_progress_var (percent learned (original_count s)) (ui s)) s
  else s.

(** [FlashcardApp._update_stats] *)
Definition _update_stats (s : FlashcardApp) : FlashcardApp :=
  let s := set_ui (set_progress_label (_get_progress_text s) (ui s)) s in
  let s := _update_progress_bar s in
  set_ui (set_stats_label (cards_learned_today s) (ui s)) s.

(** [FlashcardApp._show_front] *)
Definition _show_front (s : FlashcardApp) : FlashcardApp :=
  set_ui (set_card_text TitleUrdu (get (current_card s) "Urdu") (ui s)) s.

(** [FlashcardApp.flip_card] *)
Definition flip_card (s : FlashcardApp) : FlashcardApp :=
  let s := set_is_flipped true s in
  set_ui (set_card_text TitleEnglish (get (current_card s) "English") (ui s)) s.

(** [FlashcardApp.manual_flip] *)
Definition manual_flip (s : FlashcardApp) : FlashcardApp :=
  let s := if flip_timer s then set_flip_timer false s else s in
  if is_flipped s then set_is_flipped false (_show_front s)
  else flip_card s.

(** [FlashcardApp._toggle_auto_flip], with the value of the check box *)
Definition _toggle_auto_flip (checked : bool) (s : FlashcardApp) : FlashcardApp :=
  let s := set_auto_flip_enabled checked s in
  if negb (auto_flip_enabled s) && flip_timer s then set_flip_timer false s else s.

(** ** Methods that touch the world *)

Section Methods.
Context `{Pandas}.

(** Truth value of a list: [[]] is false. *)
Definition is_empty (l : list VocabItem) : bool :=
  match l with
  | [] => true
  | _ :: _ => false
  end.

(** [FlashcardApp._show_completion_message] *)
Definition _show_completion_message (s : FlashcardApp) (w : World)
  : FlashcardApp * World :=
  (set_ui (set_card_text TitleCongratulations "All words learned!" (ui s)) s,
   say (Congratulations (original_count s) (cards_learned_today s)) w).

(** [FlashcardApp.next_card] *)
Definition next_card (draw : nat) (s : FlashcardApp) (w : World)
  : FlashcardApp * World :=
  let s := if flip_timer s then set_flip_timer false s else s in
  if is_empty (to_learn s) then _show_completion_message s w
  else
    let s := set_is_flipped false s in
    match choice draw (to_learn s) with
    | None => (s, w)   (* IndexError of random.choice; the list is not empty *)
    | Some card =>
        let s := set_current_card card s in
        let s := _show_front s in
        let s := if auto_flip_enabled s then set_flip_timer true s else s in
        (s, w)
    end.

(** [FlashcardApp._save_progress] *)
Definition _save_progress (s : FlashcardApp) (w : World) : World :=
  match write_progress (to_csv (to_learn s)) w with
  | Return w' => w'
  | Raise e => say (SaveFailed e) w
  end.

(** [FlashcardApp.is_known] *)
Definition is_known (draw : nat) (s : FlashcardApp) (w : World)
  : FlashcardApp * World :=
  if negb (truthy (current_card s)) || is_empty (to_learn s) then (s, w)
  else
    let s := set_last_removed (Some (current_card s)) s in
    let s := set_ui (set_undo_button true (ui s)) s in
    let s :=
      if contains (current_card s) (to_learn s) then
        match remove (current_card s) (to_learn s) with
        | Some l => set_to_learn l s
        | None => s   (* ValueError of list.remove; excluded by the test *)
        end
      else s in
    let s := set_cards_learned_today (cards_learned_today s + 1) s in
    let w := _save_progress s w in
    let s := _update_stats s in
    next_card draw s w.

(** [FlashcardApp.undo_last] *)
Definition undo_last (s : FlashcardApp) (w : World) : FlashcardApp * World :=
  if truthy_opt (last_removed s) then
    match last_removed s with
    | Some item =>
        let s := set_to_learn (to_learn s ++ [item]) s in
        let s := set_cards_learned_today (Z.max 0 (cards_learned_today s - 1)) s in
        let w := _save_progress s w in
        let s := _update_stats s in
        let s := set_last_removed None s in
        let s := set_ui (set_undo_button false (ui s)) s in
        (s, say UndoDone w)
    | None => (s, w)
    end
  else (s, w).

(** The body of the [try] of [reset_progress], up to the reload. *)
Definition reset_unlink (w : World) : Result World :=
  match PROGRESS_FILE w with
  | Some _ => unlink_progress w
  | None => mret w
  end.

(** [FlashcardApp.reset_progress]; [answer] is what the user replies to
    [askyesno]. *)
Definition reset_progress (answer : bool) (draw : nat) (s : FlashcardApp) (w : World)
  : FlashcardApp * World :=
  if answer then
    match reset_unlink w with
    | Raise e => (s, say (ResetFailed e) w)
    | Return w =>
        let '(data, w) := _load_data w in
        let s := set_to_learn data s in
        let s := set_original_count (len (to_learn s)) s in
        let s := set_cards_learned_today 0 s in
        let s := _update_stats s in
        let '(s, w) := if is_empty (to_learn s) then (s, w) else next_card draw s w in
        (s, say ResetDone w)
    end
  else (s, w).

(** [FlashcardApp.__init__]: the attributes, the load, [_setup_ui] and the
    first card. *)
Definition __init__ (draw : nat) (w : World) : FlashcardApp * World :=
  let '(data, w) := _load_data w in
  let s := mkApp ∅ false 0 false true data (len data) None
                 (mkWidgets (0, 0, 0%Q) 0%Q 0 false NoTitle "") in
  let s := set_ui (set_progress_label (_get_progress_text s) (ui s)) s in
  let s := _update_progress_bar s in
  if is_empty (to_learn s) then _show_completion_message s w
  else next_card draw s w.

(** ** The events of a session *)

Inductive Op :=
| NextCard (draw : nat)                      (* cross button, Right *)
| IsKnown (draw : nat)                       (* tick button, Left *)
| ManualFlip                                 (* flip button, space *)
| TimerFires                                 (* the pending auto-flip runs *)
| ToggleAutoFlip (checked : bool)
| UndoLast                                   (* undo button, u *)
| ResetProgress (answer : bool) (draw : nat) (* reset button, r *)
| SaveProgress.                              (* a bare [_save_progress] *)

Definition step (o : Op) (sw : FlashcardApp * World) : FlashcardApp * World :=
  let '(s, w) := sw in
  match o with
  | NextCard draw => next_card draw s w
  | IsKnown draw => is_known draw s w
  | ManualFlip => (manual_flip s, w)
  | TimerFires => if flip_timer s then (flip_card (set_flip_timer false s), w) else (s, w)
  | ToggleAutoFlip checked => (_toggle_auto_flip checked s, w)
  | UndoLast => undo_last s w
  | ResetProgress answer draw => reset_progress answer draw s w
  | SaveProgress => (s, _save_progress s w)
  end.

(** The states a session goes through, the starting one first. *)
Fixpoint trace (ops : list Op) (sw : FlashcardApp * World)
  : list (FlashcardApp * World) :=
  match ops with
  | [] => [sw]
  | o :: ops' => sw :: trace ops' (step o sw)
  end.

(** The state a session ends in. *)
Definition run (ops : list Op) (sw : FlashcardApp * World) : FlashcardApp * World :=
  foldl (λ sw o, step o sw) sw ops.

Definition is_undo_or_reset (o : Op) : bool :=
  match o with
  | UndoLast | ResetProgress _ _ => true
  | _ => false
  end.

(** The store part of the object: working list, counters and undo slot. *)
Definition same_store (s s' : FlashcardApp) : Prop :=
  to_learn s' = to_learn s ∧ original_count s' = original_count s ∧
  cards_learned_today s' = cards_learned_today s ∧
  last_removed s' = last_removed s.

Definition same_files (w w' : World) : Prop :=
  PROGRESS_FILE w' = PROGRESS_FILE w ∧ ORIGINAL_FILE w' = ORIGINAL_FILE w ∧
  denied w' = denied w.

(** [learned] of [_get_progress_text] *)
Definition learned_total (s : FlashcardApp) : Z := (_get_progress_text s).1.1.

End Methods.

(** ** A stand-in for pandas

    Enough of pandas to run the methods: a file is a table of text rows, the
    blank file written for a frame without columns, or something that does
    not parse. *)

Inductive TextFile :=
| Blank
| Garbage
| Rows (rows : list VocabItem).

Definition text_pandas : Pandas :=
  {| Content := TextFile;
     to_csv l := match l with [] => Blank | _ => Rows l end;
     read_csv f :=
       match f with
       | Rows rows => Return rows
       | Blank => Raise (Exc "No columns to parse from file")
       | Garbage => Raise (Exc "Error tokenizing data")
       end |}.

Definition salam : VocabItem := list_to_map [("Urdu", "سلام"); ("English", "Hello")].
Definition shukriya : VocabItem := list_to_map [("Urdu", "شکریہ"); ("English", "Thank you")].
Definition pani : VocabItem := list_to_map [("Urdu", "پانی"); ("English", "Water")].

(** A disk with a progress file and an original dataset that does not parse. *)
Definition stale_disk : @World text_pandas :=
  @mkWorld text_pandas (Some (Rows [salam; shukriya])) (Some Garbage) None [].

(** A disk that holds the original dataset and refuses every write. *)
Definition locked_disk (rows : list VocabItem) : @World text_pandas :=
  @mkWorld text_pandas None (Some (Rows rows))
    (Some (Exc "Permission denied")) [].

(** A disk holding only the original dataset. *)
Definition fresh_disk (rows : list VocabItem) : @World text_pandas :=
  @mkWorld text_pandas None (Some (Rows rows)) None [].

(** ** What [_load_data] settles on

    [resolve] is the table of the cases of [_load_data], read off the code;
    [resolve_as_specified] further down is the order of the specification. *)

Section Resolution.
Context `{Pandas}.

Inductive Resolved :=
| UseRows (rows : list VocabItem)
| UseDemo
| ReadError (e : Exception).

(** The original file, then the demo rows. *)
Definition resolve_original (w : World) : Resolved :=
  match ORIGINAL_FILE w with
  | None => UseDemo
  | Some f =>
      match read_csv f with
      | Return rows => UseRows rows
      | Raise e => ReadError e
      end
  end.

(** The progress file first, as the code reads it: any exception of
    [read_csv] ends the load. *)
Definition resolve (w : World) : Resolved :=
  match PROGRESS_FILE w with
  | None => resolve_original w
  | Some f =>
      match read_csv f with
      | Raise e => ReadError e
      | Return [] => resolve_original w
      | Return (row :: rows) => UseRows (row :: rows)
      end
  end.

Definition load_resolved (r : Resolved) (w : World) : list VocabItem * World :=
  match r with
  | UseRows rows => (rows, w)
  | UseDemo => (demo_data, say DataNotFound w)
  | ReadError e => ([], say (LoadFailed e) w)
  end.

(** The order of the specification: "(a) a previously-saved progress file,
    if present and non-empty; (b) the original full dataset file; (c) a small
    built-in fallback set of 3 items", and on a read error an empty working
    set with the error reported.  A file is empty when it holds no row:
    nothing at all, which [read_csv] answers with [EmptyDataError], or a
    header line alone. *)
Definition holds_no_row (f : Content) : bool :=
  match read_csv f with
  | Return [] => true
  | Return (_ :: _) => false
  | Raise e => bool_decide (e = EmptyDataError)
  end.

Definition resolve_as_specified (w : World) : Resolved :=
  match PROGRESS_FILE w with
  | None => resolve_original w
  | Some f =>
      if holds_no_row f then resolve_original w
      else
        match read_csv f with
        | Return rows => UseRows rows
        | Raise e => ReadError e
        end
  end.

End Resolution.

(** ** Invariants of a session, stated *)

(** The labels show the figures of the object; the bar does when there is a
    total to divide by. *)
Definition labels_in_sync (s : FlashcardApp) : Prop :=
  progress_label (ui s) = _get_progress_text s ∧
  stats_label (ui s) = cards_learned_today s ∧
  ((0 <? original_count s) = true →
   progress_var (ui s) = (_get_progress_text s).2).

(** The labels, the bar and the undo button of two objects agree. *)
Definition same_labels (s s' : FlashcardApp) : Prop :=
  progress_label (ui s') = progress_label (ui s) ∧
  progress_var (ui s') = progress_var (ui s) ∧
  stats_label (ui s') = stats_label (ui s) ∧
  undo_button (ui s') = undo_button (ui s).

(** The undo button is enabled exactly when the slot holds a row. *)
Definition undo_button_in_sync (s : FlashcardApp) : Prop :=
  undo_button (ui s) = truthy_opt (last_removed s).

Definition display_in_sync (s : FlashcardApp) : Prop :=
  labels_in_sync s ∧ undo_button_in_sync s.

(** What holds of the store as long as no reset is confirmed: the current
    card is in the working list, or the list is empty and the card is the one
    in the slot (or nothing was ever loaded); a filled slot holds a row with
    fields and goes with a counter of at least one; the counter is the
    [learned] figure. *)
Definition consistent (s : FlashcardApp) : Prop :=
  ((current_card s ∈ to_learn s) ∨
   (to_learn s = [] ∧
    (last_removed s = None ∨ last_removed s = Some (current_card s)))) ∧
  (∀ x, last_removed s = Some x → x ≠ ∅ ∧ 1 ≤ cards_learned_today s) ∧
  cards_learned_today s = original_count s - len (to_learn s) ∧
  0 ≤ cards_learned_today s.

Definition is_confirmed_reset (o : Op) : bool :=
  match o with
  | ResetProgress true _ => true
  | _ => false
  end.

(** * Properties *)

(** ** Lists *)

Lemma len_nonneg {A} (l : list A) : 0 ≤ len l.
Proof. unfold len. lia. Qed.

Lemma len_app_one {A} (l : list A) (x : A) : len (l ++ [x]) = len l + 1.
Proof. unfold len. rewrite length_app. simpl. lia. Qed.

Lemma is_empty_true (l : list VocabItem) : is_empty l = true ↔ l = [].
Proof. destruct l; simpl; split; congruence. Qed.

Lemma is_empty_false (l : list VocabItem) : is_empty l = false ↔ l ≠ [].
Proof. destruct l; simpl; split; congruence. Qed.

Lemma truthy_true (d : VocabItem) : truthy d = true ↔ d ≠ ∅.
Proof.
  unfold truthy. split.
  - intros Hd. by apply bool_decide_eq_true in Hd.
  - intros Hd. by apply bool_decide_eq_true.
Qed.

Lemma contains_true (x : VocabItem) (l : list VocabItem) :
  contains x l = true ↔ x ∈ l.
Proof. unfold contains. apply bool_decide_eq_true. Qed.

Lemma contains_false (x : VocabItem) (l : list VocabItem) :
  contains x l = false ↔ x ∉ l.
Proof. unfold contains. apply bool_decide_eq_false. Qed.

(** [remove] succeeds exactly on the members. *)
Lemma remove_is_Some (x : VocabItem) (l : list VocabItem) :
  x ∈ l → is_Some (remove x l).
Proof.
  induction l as [|y l IH]; intros Hin.
  - by apply elem_of_nil in Hin.
  - simpl. destruct (decide (y = x)) as [->|Hne]; [by eexists|].
    apply elem_of_cons in Hin as [->|Hin]; [done|].
    destruct (IH Hin) as [l' ->]. by eexists.
Qed.

(** What [remove] takes out is one copy of [x]. *)
Lemma remove_Permutation (x : VocabItem) (l l' : list VocabItem) :
  remove x l = Some l' → l ≡ₚ x :: l'.
Proof.
  revert l'. induction l as [|y l IH]; intros l' Hrm; simpl in Hrm.
  - discriminate.
  - destruct (decide (y = x)) as [->|Hne].
    + by injection Hrm as ->.
    + destruct (remove x l) as [k|] eqn:Hk; simpl in Hrm; [|discriminate].
      injection Hrm as <-. rewrite (IH k eq_refl). apply Permutation_swap.
Qed.

Lemma remove_len (x : VocabItem) (l l' : list VocabItem) :
  remove x l = Some l' → len l' = len l - 1.
Proof.
  intros Hrm. apply remove_Permutation, Permutation_length in Hrm.
  unfold len. rewrite Hrm. simpl. lia.
Qed.

Lemma choice_elem_of {A} (draw : nat) (l : list A) (c : A) :
  choice draw l = Some c → c ∈ l.
Proof.
  destruct l as [|a l]; [discriminate|]. unfold choice.
  intros Hc. apply list_elem_of_lookup. eauto.
Qed.

Lemma choice_is_Some {A} (draw : nat) (l : list A) :
  l ≠ [] → is_Some (choice draw l).
Proof.
  destruct l as [|a l]; [done|]. intros _. unfold choice.
  apply lookup_lt_is_Some. apply Nat.mod_upper_bound. simpl. lia.
Qed.

(** ** Frames of the display methods *)

Section Store.
Context `{Pandas}.

Lemma same_store_refl (s : FlashcardApp) : same_store s s.
Proof. by repeat split. Qed.

Lemma same_store_trans (s1 s2 s3 : FlashcardApp) :
  same_store s1 s2 → same_store s2 s3 → same_store s1 s3.
Proof.
  intros (?&?&?&?) (?&?&?&?). repeat split; congruence.
Qed.

Lemma same_files_refl (w : World) : same_files w w.
Proof. by repeat split. Qed.

Lemma _update_progress_bar_store (s : FlashcardApp) :
  same_store s (_update_progress_bar s) ∧
  current_card (_update_progress_bar s) = current_card s.
Proof.
  unfold _update_progress_bar. destruct (0 <? original_count s); by repeat split.
Qed.

Lemma _update_stats_store (s : FlashcardApp) :
  same_store s (_update_stats s) ∧ current_card (_update_stats s) = current_card s.
Proof.
  unfold _update_stats, _update_progress_bar. simpl.
  destruct (0 <? original_count s); by repeat split.
Qed.

Lemma _update_stats_flags (s : FlashcardApp) :
  flip_timer (_update_stats s) = flip_timer s ∧
  auto_flip_enabled (_update_stats s) = auto_flip_enabled s ∧
  undo_button (ui (_update_stats s)) = undo_button (ui s).
Proof.
  unfold _update_stats, _update_progress_bar. simpl.
  destruct (0 <? original_count s); by repeat split.
Qed.

Lemma next_card_store (draw : nat) (s : FlashcardApp) (w : World) :
  same_store s (next_card draw s w).1.
Proof.
  unfold next_card.
  destruct (flip_timer s); simpl;
    (destruct (is_empty (to_learn s)); simpl; [by repeat split|]);
    (destruct (choice draw (to_learn s)); simpl; [|by repeat split]);
    destruct (auto_flip_enabled s); by repeat split.
Qed.

Lemma next_card_files (draw : nat) (s : FlashcardApp) (w : World) :
  same_files w (next_card draw s w).2.
Proof.
  unfold next_card.
  destruct (flip_timer s); simpl;
    (destruct (is_empty (to_learn s)); simpl; [by repeat split|]);
    (destruct (choice draw (to_learn s)); simpl; [|by repeat split]);
    destruct (auto_flip_enabled s); by repeat split.
Qed.

Lemma _save_progress_written (s : FlashcardApp) (w : World) :
  denied w = None →
  _save_progress s w =
    mkWorld (Some (to_csv (to_learn s))) (ORIGINAL_FILE w) None (shown w).
Proof.
  intros Hd. unfold _save_progress, write_progress. by rewrite Hd.
Qed.

Lemma _save_progress_failed (s : FlashcardApp) (w : World) (e : Exception) :
  denied w = Some e → _save_progress s w = say (SaveFailed e) w.
Proof.
  intros Hd. unfold _save_progress, write_progress. by rewrite Hd.
Qed.

Lemma _save_progress_original (s : FlashcardApp) (w : World) :
  ORIGINAL_FILE (_save_progress s w) = ORIGINAL_FILE w ∧
  denied (_save_progress s w) = denied w.
Proof.
  unfold _save_progress, write_progress.
  destruct (denied w) eqn:Hd; simpl; by rewrite ?Hd.
Qed.

(** The file written depends on the working list alone. *)
Lemma _save_progress_ext (s s' : FlashcardApp) (w : World) :
  to_learn s' = to_learn s → _save_progress s' w = _save_progress s w.
Proof. intros Heq. unfold _save_progress. by rewrite Heq. Qed.

(** ** Loading *)

Lemma _load_data_resolve (w : World) :
  _load_data w = load_resolved (resolve w) w.
Proof.
  unfold _load_data, _load_data_try, resolve, resolve_original.
  destruct (PROGRESS_FILE w) as [f|]; simpl.
  - destruct (read_csv f) as [[|row rows]|e]; simpl; [|done..].
    destruct (ORIGINAL_FILE w) as [g|]; simpl; [|done].
    by destruct (read_csv g).
  - destruct (ORIGINAL_FILE w) as [g|]; simpl; [|done].
    by destruct (read_csv g).
Qed.

(** Away from a progress file on which [read_csv] raises [EmptyDataError],
    the code follows the order of the specification. *)
Lemma _load_data_as_specified (w : World) :
  (∀ f, PROGRESS_FILE w = Some f → read_csv f ≠ Raise EmptyDataError) →
  _load_data w = load_resolved (resolve_as_specified w) w.
Proof.
  intros Hblank. rewrite _load_data_resolve.
  unfold resolve, resolve_as_specified, holds_no_row.
  destruct (PROGRESS_FILE w) as [f|]; [|done].
  specialize (Hblank f eq_refl).
  destruct (read_csv f) as [[|row rows]|e]; [done..|].
  rewrite bool_decide_eq_false_2; [done|]. congruence.
Qed.

Lemma __init___store (draw : nat) (w : World) :
  to_learn (__init__ draw w).1 = (_load_data w).1 ∧
  original_count (__init__ draw w).1 = len (_load_data w).1 ∧
  cards_learned_today (__init__ draw w).1 = 0 ∧
  last_removed (__init__ draw w).1 = None.
Proof.
  unfold __init__. destruct (_load_data w) as [data w0]. simpl.
  set (s0 := _update_progress_bar _).
  assert (Hs0 : to_learn s0 = data ∧ original_count s0 = len data ∧
                cards_learned_today s0 = 0 ∧ last_removed s0 = None).
  { subst s0. unfold _update_progress_bar. simpl.
    by destruct (0 <? len data). }
  destruct Hs0 as (Hl & Ho & Hc & Hr).
  destruct (is_empty (to_learn s0)).
  - simpl. by rewrite Hl, Ho, Hc, Hr.
  - destruct (next_card_store draw s0 w0) as (Hl' & Ho' & Hc' & Hr').
    by rewrite Hl', Ho', Hc', Hr', Hl, Ho, Hc, Hr.
Qed.


(** Had [read_csv] answered the file of an empty list with a frame of no
    rows, the load would have gone on to the original dataset. *)
Lemma save_empty_then_load_falls_through (s : FlashcardApp) (w : World) :
  denied w = None → to_learn s = [] → read_csv (to_csv []) = Return [] →
  resolve (_save_progress s w) = resolve_original w.
Proof.
  intros Hd Hl Hr. rewrite _save_progress_written by done.
  unfold resolve, resolve_original. simpl. by rewrite Hl, Hr.
Qed.

(** ** Undo on an empty slot *)

(** C6. With nothing in the undo slot [undo_last] does nothing: object and
    world, hence working list, counters, slot, files and the log of dialogs,
    are the ones it was called with. *)
Theorem undo_last_empty_slot (s : FlashcardApp) (w : World) :
  last_removed s = None → undo_last s w = (s, w).
Proof. intros Hr. unfold undo_last. by rewrite Hr. Qed.

(** ** Picking a card *)

(** C7. [next_card] shows the completion message exactly when the working
    list is empty and leaves the card alone then; otherwise the card it puts
    on display is a member of the list and no dialog appears.  Either way the
    working list, the counters, the undo slot and the files are untouched. *)
Theorem next_card_pick (draw : nat) (s : FlashcardApp) (w : World) :
  let s' := (next_card draw s w).1 in
  let w' := (next_card draw s w).2 in
  (to_learn s = [] ↔
     shown w' = shown w ++ [Congratulations (original_count s) (cards_learned_today s)]) ∧
  match to_learn s with
  | [] => current_card s' = current_card s
  | _ :: _ => current_card s' ∈ to_learn s ∧ shown w' = shown w
  end ∧
  same_store s s' ∧ same_files w w'.
Proof.
  intros s' w'.
  split; [|split; [|split; [apply next_card_store|apply next_card_files]]].
  - subst s' w'. unfold next_card.
    assert (Hnil : ∀ l : list Event, l ≠ l ++ [Congratulations (original_count s) (cards_learned_today s)]).
    { intros l Heq. apply (f_equal length) in Heq. rewrite length_app in Heq.
      simpl in Heq. lia. }
    destruct (flip_timer s); simpl;
      (destruct (to_learn s) as [|row rows] eqn:Hl; simpl; [done|]);
      (split; [done|]); intros Hs; exfalso; revert Hs;
      (destruct (choice draw (row :: rows)); simpl; [|by intros ?%Hnil]);
      destruct (auto_flip_enabled s); simpl; by intros ?%Hnil.
  - subst s' w'. unfold next_card.
    destruct (to_learn s) as [|row rows] eqn:Hl.
    + destruct (flip_timer s); simpl; by rewrite Hl.
    + destruct (choice_is_Some draw (row :: rows)) as [card Hc]; [done|].
      pose proof (choice_elem_of _ _ _ Hc) as Hin.
      destruct (flip_timer s); simpl; rewrite Hl; simpl; rewrite Hc;
        destruct (auto_flip_enabled s); by simpl.
Qed.

(** Every member can come up: the draw that [random.choice] makes of it. *)
Lemma next_card_any_member (s : FlashcardApp) (w : World) (c : VocabItem) :
  c ∈ to_learn s → ∃ draw, current_card (next_card draw s w).1 = c.
Proof.
  intros Hin. apply list_elem_of_lookup in Hin as [i Hi].
  exists i. unfold next_card.
  assert (Hlt : (i < length (to_learn s))%nat) by (by eapply lookup_lt_Some).
  assert (Hc : choice i (to_learn s) = Some c).
  { unfold choice. destruct (to_learn s) as [|row rows] eqn:Hl; [simpl in Hlt; lia|].
    by rewrite Nat.mod_small. }
  destruct (flip_timer s); simpl;
    (destruct (to_learn s) as [|row rows] eqn:Hl; [simpl in Hlt; lia|]);
    simpl; rewrite Hc; destruct (auto_flip_enabled s); by simpl.
Qed.

(** ** Progress figures *)


(** The progress bar gets the same percentage for a positive total and is
    left as it is otherwise. *)
Lemma _update_progress_bar_value (s : FlashcardApp) :
  if 0 <? original_count s
  then progress_var (ui (_update_progress_bar s)) = (_get_progress_text s).2
  else _update_progress_bar s = s.
Proof.
  unfold _update_progress_bar, _get_progress_text.
  destruct (0 <? original_count s); by simpl.
Qed.

(** ** Marking a card as known *)

Lemma is_known_noop (draw : nat) (s : FlashcardApp) (w : World) :
  current_card s = ∅ ∨ to_learn s = [] → is_known draw s w = (s, w).
Proof.
  intros [Hc|Hl]; unfold is_known.
  - rewrite Hc. done.
  - rewrite Hl. simpl. by rewrite orb_true_r.
Qed.

(** The store after an [is_known] that passes its guard. *)
Lemma is_known_store (draw : nat) (s : FlashcardApp) (w : World) :
  current_card s ≠ ∅ → to_learn s ≠ [] →
  let s' := (is_known draw s w).1 in
  let w' := (is_known draw s w).2 in
  to_learn s' =
    (if contains (current_card s) (to_learn s)
     then default (to_learn s) (remove (current_card s) (to_learn s))
     else to_learn s) ∧
  original_count s' = original_count s ∧
  cards_learned_today s' = cards_learned_today s + 1 ∧
  last_removed s' = Some (current_card s) ∧
  PROGRESS_FILE w' =
    match denied w with
    | None => Some (to_csv (to_learn s'))
    | Some _ => PROGRESS_FILE w
    end ∧
  ORIGINAL_FILE w' = ORIGINAL_FILE w ∧ denied w' = denied w.
Proof.
  intros Hc Hl s' w'. subst s' w'. unfold is_known.
  apply truthy_true in Hc. apply is_empty_false in Hl. rewrite Hc, Hl. simpl.
  set (s1 := set_cards_learned_today _ _).
  assert (H1 : to_learn s1 =
                 (if contains (current_card s) (to_learn s)
                  then default (to_learn s) (remove (current_card s) (to_learn s))
                  else to_learn s) ∧
               original_count s1 = original_count s ∧
               cards_learned_today s1 = cards_learned_today s + 1 ∧
               last_removed s1 = Some (current_card s)).
  { subst s1. destruct (contains (current_card s) (to_learn s)); simpl; [|done].
    by destruct (remove (current_card s) (to_learn s)). }
  destruct H1 as (H1l & H1o & H1c & H1r).
  destruct (_update_stats_store s1) as [(H2l & H2o & H2c & H2r) _].
  destruct (next_card_store draw (_update_stats s1) (_save_progress s1 w))
    as (H3l & H3o & H3c & H3r).
  destruct (next_card_files draw (_update_stats s1) (_save_progress s1 w))
    as (H3p & H3g & H3d).
  rewrite H3l, H3o, H3c, H3r, H3p, H3g, H3d, H2l, H2o, H2c, H2r.
  rewrite <- H1l, H1o, H1c, H1r.
  destruct (_save_progress_original s1 w) as [-> ->].
  repeat split; try done.
  destruct (denied w) as [e|] eqn:Hd.
  - by rewrite (_save_progress_failed _ _ e).
  - by rewrite _save_progress_written.
Qed.

(** What C1 and C2 share: one copy of the card leaves the list, the counter
    goes up and the slot holds the card. *)
Lemma is_known_member (draw : nat) (s : FlashcardApp) (w : World) (x : VocabItem) :
  current_card s = x → x ≠ ∅ → x ∈ to_learn s →
  let s' := (is_known draw s w).1 in
  remove x (to_learn s) = Some (to_learn s') ∧
  to_learn s ≡ₚ x :: to_learn s' ∧
  cards_learned_today s' = cards_learned_today s + 1 ∧
  last_removed s' = Some x.
Proof.
  intros <- Hx Hin s'.
  assert (Hne : to_learn s ≠ []).
  { intros Heq. rewrite Heq in Hin. by apply elem_of_nil in Hin. }
  destruct (is_known_store draw s w Hx Hne) as (Hl & _ & Hc & Hr & _).
  fold s' in Hl, Hc, Hr.
  apply contains_true in Hin as Hcon. rewrite Hcon in Hl.
  apply remove_is_Some in Hin as [l' Hrm]. rewrite Hrm in Hl. simpl in Hl.
  rewrite Hl. pose proof (remove_Permutation _ _ _ Hrm) as Hperm.
  by repeat split.
Qed.

(** C1, amended. For a current card [x] with at least one field that is in
    the working list, [is_known] deletes one occurrence of [x], the first:
    the old list is a permutation of [x] followed by the new one, so the
    length drops by one and [x] is gone when the list had no duplicate rows;
    the session counter goes up by one. *)
Theorem is_known_removes_one (draw : nat) (s : FlashcardApp) (w : World)
    (x : VocabItem) :
  current_card s = x → x ≠ ∅ → x ∈ to_learn s →
  let s' := (is_known draw s w).1 in
  remove x (to_learn s) = Some (to_learn s') ∧
  to_learn s ≡ₚ x :: to_learn s' ∧
  len (to_learn s') = len (to_learn s) - 1 ∧
  (NoDup (to_learn s) → x ∉ to_learn s') ∧
  cards_learned_today s' = cards_learned_today s + 1.
Proof.
  intros Hcur Hx Hin s'.
  destruct (is_known_member draw s w x Hcur Hx Hin) as (Hrm & Hperm & Hc & _).
  fold s' in Hrm, Hperm, Hc.
  repeat split; try done.
  - by apply remove_len in Hrm.
  - intros Hnd. rewrite Hperm in Hnd. by apply NoDup_cons in Hnd as [? _].
Qed.

(** C10. When the current card has fields, the working list is not empty and
    the card is not in it, [is_known] still goes through: the undo slot holds
    the card, the session counter goes up by one, the working list is written
    to the progress file (when the write is allowed) and is itself
    unchanged, as is [original_count]; the counter then counts a card that
    was never removed. *)
Theorem is_known_absent_card (draw : nat) (s : FlashcardApp) (w : World) :
  current_card s ≠ ∅ → to_learn s ≠ [] → current_card s ∉ to_learn s →
  let s' := (is_known draw s w).1 in
  let w' := (is_known draw s w).2 in
  last_removed s' = Some (current_card s) ∧
  cards_learned_today s' = cards_learned_today s + 1 ∧
  to_learn s' = to_learn s ∧
  original_count s' = original_count s ∧
  PROGRESS_FILE w' =
    match denied w with
    | None => Some (to_csv (to_learn s))
    | Some _ => PROGRESS_FILE w
    end.
Proof.
  intros Hx Hne Hnin s' w'.
  destruct (is_known_store draw s w Hx Hne) as (Hl & Ho & Hc & Hr & Hp & _).
  fold s' in Hl, Ho, Hc, Hr, Hp. fold w' in Hp.
  apply contains_false in Hnin. rewrite Hnin in Hl.
  rewrite Hp, Hl. by repeat split.
Qed.

(** ** Undo *)

Lemma undo_last_store (s : FlashcardApp) (w : World) (x : VocabItem) :
  last_removed s = Some x → x ≠ ∅ →
  let s' := (undo_last s w).1 in
  to_learn s' = to_learn s ++ [x] ∧
  original_count s' = original_count s ∧
  cards_learned_today s' = Z.max 0 (cards_learned_today s - 1) ∧
  last_removed s' = None.
Proof.
  intros Hr Hx s'. subst s'.
  unfold undo_last, _update_stats, _update_progress_bar. rewrite Hr. simpl.
  apply truthy_true in Hx. rewrite Hx. simpl.
  by destruct (0 <? original_count s).
Qed.

(** C2. [undo_last] right after [is_known] on a current card [x] of the
    working list: the list is the old one up to order ([x] has moved to the
    end), so the same set of records, and the session counter is back at the
    value it had, a count and so not negative, before the card was marked. *)
Theorem undo_last_after_is_known (draw : nat) (s : FlashcardApp) (w : World)
    (x : VocabItem) :
  current_card s = x → x ≠ ∅ → x ∈ to_learn s → 0 ≤ cards_learned_today s →
  let s1 := (is_known draw s w).1 in
  let w1 := (is_known draw s w).2 in
  let s2 := (undo_last s1 w1).1 in
  to_learn s2 ≡ₚ to_learn s ∧
  (∀ y, y ∈ to_learn s2 ↔ y ∈ to_learn s) ∧
  cards_learned_today s2 = cards_learned_today s.
Proof.
  intros Hcur Hx Hin Hpos s1 w1 s2.
  destruct (is_known_member draw s w x Hcur Hx Hin) as (_ & Hperm & Hc & Hr).
  fold s1 in Hperm, Hc, Hr.
  destruct (undo_last_store s1 w1 x Hr Hx) as (Hl2 & _ & Hc2 & _).
  fold s2 in Hl2, Hc2.
  assert (Hp : to_learn s2 ≡ₚ to_learn s).
  { rewrite Hl2, Hperm. symmetry. apply Permutation_cons_append. }
  split; [done|]. split.
  - intros y. by rewrite Hp.
  - rewrite Hc2, Hc. lia.
Qed.

(** ** Reset *)

(** A reset that was confirmed and could delete the progress file: the file
    is gone, the list is what steps (b) and (c) of the resolution order give,
    [original_count] is its length and the session counter is zero.  The undo
    slot is not among the attributes assigned: it keeps its content. *)
Lemma reset_progress_done (draw : nat) (s : FlashcardApp) (w w0 : World) :
  reset_unlink w = Return w0 →
  let s' := (reset_progress true draw s w).1 in
  let w' := (reset_progress true draw s w).2 in
  PROGRESS_FILE w' = None ∧
  ORIGINAL_FILE w' = ORIGINAL_FILE w ∧
  to_learn s' = (load_resolved (resolve_original w) w).1 ∧
  original_count s' = len (to_learn s') ∧
  cards_learned_today s' = 0 ∧
  last_removed s' = last_removed s.
Proof.
  intros Hu s' w'. subst s' w'. unfold reset_progress. rewrite Hu.
  assert (Hw0 : PROGRESS_FILE w0 = None ∧ ORIGINAL_FILE w0 = ORIGINAL_FILE w).
  { unfold reset_unlink, unlink_progress in Hu.
    destruct (PROGRESS_FILE w) eqn:Hp.
    - destruct (denied w); [discriminate|]. by injection Hu as <-.
    - by injection Hu as <-. }
  destruct Hw0 as [Hp0 Hg0].
  rewrite _load_data_resolve.
  assert (Hres : resolve w0 = resolve_original w).
  { unfold resolve, resolve_original. by rewrite Hp0, Hg0. }
  rewrite Hres.
  destruct (load_resolved (resolve_original w) w0) as [data w1] eqn:Hld.
  assert (Hdata : data = (load_resolved (resolve_original w) w).1
                  ∧ PROGRESS_FILE w1 = None ∧ ORIGINAL_FILE w1 = ORIGINAL_FILE w).
  { destruct (resolve_original w); simpl in *; injection Hld as <- <-; by simpl. }
  destruct Hdata as (-> & Hp1 & Hg1).
  remember (load_resolved (resolve_original w) w).1 as data eqn:Hdata.
  remember (_update_stats _) as s1 eqn:Hs1.
  assert (H1 : to_learn s1 = data ∧ original_count s1 = len data ∧
               cards_learned_today s1 = 0 ∧ last_removed s1 = last_removed s).
  { subst s1. set (s0 := set_cards_learned_today _ _).
    destruct (_update_stats_store s0) as [(-> & -> & -> & ->) _]. by subst s0. }
  clear Hs1. destruct H1 as (H1l & H1o & H1c & H1r).
  destruct (is_empty (to_learn s1)); simpl.
  - rewrite H1l, H1o, H1c, H1r. done.
  - destruct (next_card draw s1 w1) as [s2 w2] eqn:Hn.
    pose proof (next_card_store draw s1 w1) as (H2l & H2o & H2c & H2r).
    pose proof (next_card_files draw s1 w1) as (H2p & H2g & _).
    rewrite Hn in *. simpl in *.
    rewrite H2l, H2o, H2c, H2r, H2p, H2g, H1l, H1o, H1c, H1r. done.
Qed.

Lemma reset_progress_failed (draw : nat) (s : FlashcardApp) (w : World)
    (e : Exception) :
  reset_unlink w = Raise e →
  reset_progress true draw s w = (s, say (ResetFailed e) w).
Proof. intros Hu. unfold reset_progress. by rewrite Hu. Qed.

(** ** Invariants of a session *)

Lemma learned_total_eq (s : FlashcardApp) :
  learned_total s = original_count s - len (to_learn s).
Proof. reflexivity. Qed.

Lemma is_known_learned_total (draw : nat) (s : FlashcardApp) (w : World) :
  learned_total s ≤ learned_total (is_known draw s w).1.
Proof.
  destruct (decide (current_card s = ∅)) as [Hc|Hc].
  { rewrite is_known_noop by auto. done. }
  destruct (decide (to_learn s = [])) as [Hl|Hl].
  { rewrite is_known_noop by auto. done. }
  destruct (is_known_store draw s w Hc Hl) as (Hl' & Ho' & _).
  rewrite !learned_total_eq, Ho', Hl'.
  destruct (contains (current_card s) (to_learn s)); [|lia].
  destruct (remove (current_card s) (to_learn s)) as [l'|] eqn:Hrm; simpl; [|lia].
  apply remove_len in Hrm. lia.
Qed.

Lemma step_learned_total (o : Op) (sw : FlashcardApp * World) :
  is_undo_or_reset o = false →
  learned_total sw.1 ≤ learned_total (step o sw).1.
Proof.
  destruct sw as [s w]. destruct o; simpl; try done; intros _.
  - destruct (next_card_store draw s w) as (Hl & Ho & _).
    rewrite !learned_total_eq, Hl, Ho. lia.
  - apply is_known_learned_total.
  - unfold manual_flip. destruct (flip_timer s); simpl; by destruct (is_flipped s).
  - by destruct (flip_timer s).
  - unfold _toggle_auto_flip. simpl. by destruct (negb checked && flip_timer s).
Qed.

Lemma trace_head (ops : list Op) (sw : FlashcardApp * World) :
  trace ops sw !! 0%nat = Some sw.
Proof. by destruct ops. Qed.

(** C9. Along a session without [undo_last] and without [reset_progress] the
    [learned] figure of the progress text never goes down from one state to
    the next. *)
Theorem learned_total_monotone (ops : list Op) (sw : FlashcardApp * World)
    (i : nat) (a b : FlashcardApp * World) :
  forallb (λ o, negb (is_undo_or_reset o)) ops = true →
  trace ops sw !! i = Some a → trace ops sw !! S i = Some b →
  learned_total a.1 ≤ learned_total b.1.
Proof.
  revert sw i. induction ops as [|o ops IH]; intros sw i Hall Ha Hb.
  - simpl in Hb. by rewrite lookup_nil in Hb.
  - simpl in Hall. apply andb_true_iff in Hall as [Ho Hall].
    apply negb_true_iff in Ho.
    destruct i as [|i]; simpl in Ha, Hb.
    + injection Ha as <-. rewrite trace_head in Hb. injection Hb as <-.
      by apply step_learned_total.
    + by apply (IH (step o sw) i).
Qed.

(** The session counter is a count: it starts at zero and no event makes it
    negative. *)
Lemma step_cards_learned_today (o : Op) (sw : FlashcardApp * World) :
  0 ≤ cards_learned_today sw.1 → 0 ≤ cards_learned_today (step o sw).1.
Proof.
  destruct sw as [s w]. destruct o; simpl; intros Hpos.
  - destruct (next_card_store draw s w) as (_ & _ & -> & _). done.
  - destruct (decide (current_card s = ∅)) as [Hc|Hc].
    { rewrite is_known_noop by auto. done. }
    destruct (decide (to_learn s = [])) as [Hl|Hl].
    { rewrite is_known_noop by auto. done. }
    destruct (is_known_store draw s w Hc Hl) as (_ & _ & -> & _). lia.
  - unfold manual_flip. destruct (flip_timer s); simpl; by destruct (is_flipped s).
  - by destruct (flip_timer s).
  - unfold _toggle_auto_flip. simpl. by destruct (negb checked && flip_timer s).
  - destruct (last_removed s) as [x|] eqn:Hr.
    + destruct (decide (x = ∅)) as [->|Hx].
      * unfold undo_last. rewrite Hr. done.
      * destruct (undo_last_store s w x Hr Hx) as (_ & _ & -> & _). lia.
    + unfold undo_last. rewrite Hr. done.
  - destruct answer; [|done].
    destruct (reset_unlink w) as [w0|e] eqn:Hu.
    + destruct (reset_progress_done draw s w w0 Hu) as (_ & _ & _ & _ & -> & _). done.
    + by rewrite (reset_progress_failed _ _ _ e).
  - done.
Qed.

Lemma session_cards_learned_today (ops : list Op) (draw : nat) (w : World) :
  0 ≤ cards_learned_today (run ops (__init__ draw w)).1.
Proof.
  assert (Hgen : ∀ sw, 0 ≤ cards_learned_today sw.1 →
            0 ≤ cards_learned_today (run ops sw).1).
  { unfold run. induction ops as [|o ops IH]; intros sw Hsw; [done|].
    simpl. apply IH. by apply step_cards_learned_today. }
  apply Hgen. destruct (__init___store draw w) as (_ & _ & -> & _). done.
Qed.

End Store.

(** * The methods at work on the stand-in for pandas *)

(** The stand-in reads back every list it wrote. *)
Lemma text_pandas_faithful (l : list VocabItem) : @csv_faithful text_pandas l.
Proof. destruct l; simpl; [by eexists|done]. Qed.

Lemma salam_fields : salam ≠ ∅.
Proof. by apply truthy_true. Qed.

Lemma shukriya_fields : shukriya ≠ ∅.
Proof. by apply truthy_true. Qed.

Ltac by_evaluation :=
  intros; repeat match goal with |- _ ∧ _ => split end;
  vm_compute; first [reflexivity | discriminate].

Ltac member := apply contains_true; vm_compute; reflexivity.

(** The scenario of the specification: two words, one marked known, and the
    progress text reads 1 of 2, fifty per cent. *)
Example two_words_one_known :
  let sw := step (IsKnown 0) (__init__ 0 (fresh_disk [salam; shukriya])) in
  to_learn sw.1 = [shukriya] ∧
  _get_progress_text_float sw.1 = (1, 2, 50%float) ∧
  (_get_progress_text sw.1).1 = (1, 2) ∧
  ((_get_progress_text sw.1).2 == 50)%Q.
Proof. by_evaluation. Qed.

(** The percentage is the rounded one of the program: 29 of 100 reads
    28.999999999999996 and 1 of 3 reads 33.33333333333333, where the exact
    quotients are 29 and 100/3; a negative [learned] gives a negative
    percentage. *)
Example percent_float_rounds :
  percent_float 29 100 = 0x1.cffffffffffffp+4%float ∧
  percent_float 29 100 ≠ 29%float ∧
  percent_float 1 3 = 0x1.0aaaaaaaaaaaap+5%float ∧
  percent_float 1 2 = 50%float ∧
  percent_float (-1) 2 = (-50)%float.
Proof. by_evaluation. Qed.

(** C1 as stated fails on a dataset with a repeated row: the current card is
    in the working list before and still in it after [is_known]. *)
Lemma is_known_repeated_row :
  let sw := __init__ 0 (fresh_disk [salam; salam]) in
  let x := current_card sw.1 in
  let s' := (is_known 0 sw.1 sw.2).1 in
  x ≠ ∅ ∧ x ∈ to_learn sw.1 ∧
  ¬ ((x ∉ to_learn s') ∧
     len (to_learn s') = len (to_learn sw.1) - 1 ∧
     cards_learned_today s' = cards_learned_today sw.1 + 1).
Proof.
  intros sw x s'. split; [|split].
  - apply truthy_true. by_evaluation.
  - member.
  - intros [Hnot _]. apply Hnot. member.
Qed.

Lemma is_known_removes_one_witness :
  let sw := __init__ 0 (fresh_disk [salam; shukriya]) in
  let s' := (is_known 1 sw.1 sw.2).1 in
  (current_card sw.1 = salam ∧ salam ≠ ∅ ∧ salam ∈ to_learn sw.1) ∧
  remove salam (to_learn sw.1) = Some (to_learn s') ∧
  to_learn sw.1 ≡ₚ salam :: to_learn s' ∧
  len (to_learn s') = len (to_learn sw.1) - 1 ∧
  (NoDup (to_learn sw.1) → salam ∉ to_learn s') ∧
  cards_learned_today s' = cards_learned_today sw.1 + 1.
Proof.
  intros sw s'.
  assert (Hc : current_card sw.1 = salam) by by_evaluation.
  assert (Hin : salam ∈ to_learn sw.1) by member.
  split; [by repeat split; try apply salam_fields|].
  exact (is_known_removes_one 1 sw.1 sw.2 salam Hc salam_fields Hin).
Defined.

Lemma undo_last_after_is_known_witness :
  let sw := __init__ 0 (fresh_disk [salam; shukriya]) in
  let s1 := (is_known 1 sw.1 sw.2).1 in
  let w1 := (is_known 1 sw.1 sw.2).2 in
  let s2 := (undo_last s1 w1).1 in
  (current_card sw.1 = salam ∧ salam ≠ ∅ ∧ salam ∈ to_learn sw.1 ∧
   0 ≤ cards_learned_today sw.1) ∧
  to_learn s2 ≡ₚ to_learn sw.1 ∧
  (∀ y, y ∈ to_learn s2 ↔ y ∈ to_learn sw.1) ∧
  cards_learned_today s2 = cards_learned_today sw.1.
Proof.
  intros sw s1 w1 s2.
  assert (Hc : current_card sw.1 = salam) by by_evaluation.
  assert (Hin : salam ∈ to_learn sw.1) by member.
  assert (Hpos : 0 ≤ cards_learned_today sw.1) by by_evaluation.
  split; [by repeat split; try apply salam_fields|].
  exact (undo_last_after_is_known 1 sw.1 sw.2 salam Hc salam_fields Hin Hpos).
Defined.

(** C4. [reset_progress] does not touch the undo slot.  With two words, one
    marked known and the reset confirmed, the slot still holds the word; the
    undo that follows appends it to the freshly loaded list, which then has
    three rows for a total of two. *)
Theorem reset_progress_keeps_undo_slot :
  let sw0 := __init__ 0 (fresh_disk [salam; shukriya]) in
  let sw1 := step (IsKnown 0) sw0 in
  let sw2 := step (ResetProgress true 0) sw1 in
  let sw3 := step UndoLast sw2 in
  last_removed sw1.1 = Some salam ∧
  to_learn sw2.1 = [salam; shukriya] ∧
  cards_learned_today sw2.1 = 0 ∧
  PROGRESS_FILE sw2.2 = None ∧
  last_removed sw2.1 = Some salam ∧
  undo_button (ui sw2.1) = true ∧
  to_learn sw3.1 = [salam; shukriya; salam] ∧
  learned_total sw3.1 = -1.
Proof. by_evaluation. Qed.



(** The empty list on the stand-in: the blank file does not parse, the error
    is shown and the list loaded is empty. *)
Example blank_file_loads_empty :
  let sw := run [IsKnown 0] (__init__ 0 (fresh_disk [salam])) in
  to_learn sw.1 = [] ∧ PROGRESS_FILE sw.2 = Some Blank ∧
  _load_data sw.2 =
    ([], say (LoadFailed (Exc "No columns to parse from file")) sw.2).
Proof. by_evaluation. Qed.

(** C3. After the last word is marked known the progress file is the one
    [to_csv] writes for the empty list.  It is present and holds no row, so
    the order of the specification passes to the original dataset, which
    exists; [_load_data] stops on the [EmptyDataError] of [read_csv], shows
    the error and returns the empty list, and the next run starts with
    nothing to learn. *)
Theorem restart_after_last_word :
  let sw := step (IsKnown 0) (__init__ 0 (fresh_disk [salam])) in
  PROGRESS_FILE sw.2 = Some (to_csv []) ∧
  ORIGINAL_FILE sw.2 = Some (Rows [salam]) ∧
  load_resolved (resolve_as_specified sw.2) sw.2 = ([salam], sw.2) ∧
  _load_data sw.2 = ([], say (LoadFailed EmptyDataError) sw.2) ∧
  to_learn (__init__ 0 sw.2).1 = [].
Proof. by_evaluation. Qed.

Lemma undo_last_empty_slot_witness :
  let sw := __init__ 0 (fresh_disk [salam]) in
  last_removed sw.1 = None ∧ undo_last sw.1 sw.2 = sw.
Proof.
  intros sw.
  assert (Hr : last_removed sw.1 = None) by by_evaluation.
  split; [done|].
  rewrite (undo_last_empty_slot sw.1 sw.2 Hr). by destruct sw.
Defined.

Lemma learned_total_monotone_witness :
  let ops := [NextCard 1; IsKnown 0; SaveProgress; ManualFlip] in
  let sw := __init__ 0 (fresh_disk [salam; shukriya; pani]) in
  forallb (λ o, negb (is_undo_or_reset o)) ops = true ∧
  ∃ a b, trace ops sw !! 1%nat = Some a ∧ trace ops sw !! 2%nat = Some b ∧
         learned_total a.1 ≤ learned_total b.1.
Proof.
  intros ops sw. split; [reflexivity|].
  exists (step (NextCard 1) sw), (step (IsKnown 0) (step (NextCard 1) sw)).
  split; [reflexivity|]. split; [reflexivity|].
  apply (learned_total_monotone ops sw 1); reflexivity.
Defined.

(** A session that ends with a current card outside a working list that is
    not empty, through a reset that loads nothing and an undo of the word
    left in the slot. *)
Lemma is_known_absent_card_witness :
  let sw := run [IsKnown 0; ResetProgress true 0; UndoLast] (__init__ 0 stale_disk) in
  let s' := (is_known 0 sw.1 sw.2).1 in
  let w' := (is_known 0 sw.1 sw.2).2 in
  (current_card sw.1 ≠ ∅ ∧ to_learn sw.1 ≠ [] ∧ current_card sw.1 ∉ to_learn sw.1) ∧
  last_removed s' = Some (current_card sw.1) ∧
  cards_learned_today s' = cards_learned_today sw.1 + 1 ∧
  to_learn s' = to_learn sw.1 ∧
  original_count s' = original_count sw.1 ∧
  PROGRESS_FILE w' =
    match denied sw.2 with
    | None => Some (to_csv (to_learn sw.1))
    | Some _ => PROGRESS_FILE sw.2
    end.
Proof.
  intros sw s' w'.
  assert (Hc : current_card sw.1 ≠ ∅) by (apply truthy_true; by_evaluation).
  assert (Hl : to_learn sw.1 ≠ []) by (apply is_empty_false; by_evaluation).
  assert (Hn : current_card sw.1 ∉ to_learn sw.1) by (apply contains_false; by_evaluation).
  split; [done|].
  exact (is_known_absent_card 0 sw.1 sw.2 Hc Hl Hn).
Defined.

(** The counter after that [is_known]: one card learned in the session, no
    row taken out of a list whose total is zero. *)
Example counter_exceeds_removed :
  let sw := run [IsKnown 0; ResetProgress true 0; UndoLast; IsKnown 0]
                (__init__ 0 stale_disk) in
  cards_learned_today sw.1 = 1 ∧ to_learn sw.1 = [salam] ∧
  original_count sw.1 = 0 ∧ learned_total sw.1 = -1.
Proof. by_evaluation. Qed.

(** * More on the methods *)

Section Session.
Context `{Pandas}.

(** ** The shape of what the methods return *)

Lemma is_known_anatomy (draw : nat) (s : FlashcardApp) (w : World) :
  current_card s ≠ ∅ → to_learn s ≠ [] →
  ∃ s1,
    is_known draw s w = next_card draw (_update_stats s1) (_save_progress s1 w) ∧
    to_learn s1 =
      (if contains (current_card s) (to_learn s)
       then default (to_learn s) (remove (current_card s) (to_learn s))
       else to_learn s) ∧
    original_count s1 = original_count s ∧
    cards_learned_today s1 = cards_learned_today s + 1 ∧
    last_removed s1 = Some (current_card s) ∧
    current_card s1 = current_card s ∧
    undo_button (ui s1) = true.
Proof.
  intros Hc Hl. unfold is_known.
  apply truthy_true in Hc. apply is_empty_false in Hl. rewrite Hc, Hl. simpl.
  eexists. split; [reflexivity|].
  destruct (contains (current_card s) (to_learn s)); simpl; [|done].
  by destruct (remove (current_card s) (to_learn s)).
Qed.

Lemma undo_last_anatomy (s : FlashcardApp) (w : World) (x : VocabItem) :
  last_removed s = Some x → x ≠ ∅ →
  ∃ s1,
    undo_last s w =
      (let s2 := set_last_removed None (_update_stats s1) in
       set_ui (set_undo_button false (ui s2)) s2,
       say UndoDone (_save_progress s1 w)) ∧
    to_learn s1 = to_learn s ++ [x] ∧
    original_count s1 = original_count s ∧
    cards_learned_today s1 = Z.max 0 (cards_learned_today s - 1) ∧
    current_card s1 = current_card s.
Proof.
  intros Hr Hx.
  exists (set_cards_learned_today (Z.max 0 (cards_learned_today s - 1))
            (set_to_learn (to_learn s ++ [x]) s)).
  split; [|done].
  unfold undo_last. rewrite Hr. simpl.
  apply truthy_true in Hx. by rewrite Hx.
Qed.

Lemma undo_last_idle (s : FlashcardApp) (w : World) :
  truthy_opt (last_removed s) = false → undo_last s w = (s, w).
Proof. intros Hr. unfold undo_last. by rewrite Hr. Qed.

Lemma reset_progress_anatomy (draw : nat) (s : FlashcardApp) (w w0 : World) :
  reset_unlink w = Return w0 →
  let data := (_load_data w0).1 in
  let w1 := (_load_data w0).2 in
  let s1 := _update_stats
              (set_cards_learned_today 0
                 (set_original_count (len data) (set_to_learn data s))) in
  reset_progress true draw s w =
    if is_empty data then (s1, say ResetDone w1)
    else ((next_card draw s1 w1).1, say ResetDone (next_card draw s1 w1).2).
Proof.
  intros Hu data w1 s1. subst data w1 s1. unfold reset_progress. rewrite Hu.
  destruct (_load_data w0) as [data w1].
  cbn -[_update_stats next_card is_empty].
  remember (_update_stats _) as s1 eqn:Hs1.
  assert (Hl : to_learn s1 = data).
  { subst s1. by destruct (_update_stats_store
      (set_cards_learned_today 0 (set_original_count (len data) (set_to_learn data s))))
      as [(-> & _) _]. }
  rewrite Hl. destruct (is_empty data); [done|].
  by destruct (next_card draw s1 w1).
Qed.

Lemma reset_unlink_files (w w0 : World) :
  reset_unlink w = Return w0 →
  PROGRESS_FILE w0 = None ∧ ORIGINAL_FILE w0 = ORIGINAL_FILE w ∧
  denied w0 = denied w ∧ shown w0 = shown w.
Proof.
  unfold reset_unlink, unlink_progress. intros Hu.
  destruct (PROGRESS_FILE w) eqn:Hp.
  - destruct (denied w) eqn:Hd; [discriminate|]. by injection Hu as <-.
  - by injection Hu as <-.
Qed.

Lemma _load_data_files (w : World) :
  same_files w (_load_data w).2.
Proof.
  rewrite _load_data_resolve. by destruct (resolve w).
Qed.

(** ** What the display methods leave alone *)

Lemma next_card_labels (draw : nat) (s : FlashcardApp) (w : World) :
  same_labels s (next_card draw s w).1.
Proof.
  unfold next_card.
  destruct (flip_timer s); simpl;
    (destruct (is_empty (to_learn s)); simpl; [by repeat split|]);
    (destruct (choice draw (to_learn s)); simpl; [|by repeat split]);
    destruct (auto_flip_enabled s); by repeat split.
Qed.

Lemma _update_stats_labels (s : FlashcardApp) :
  labels_in_sync (_update_stats s) ∧
  undo_button (ui (_update_stats s)) = undo_button (ui s).
Proof.
  unfold labels_in_sync, _update_stats, _update_progress_bar, _get_progress_text.
  simpl. destruct (0 <? original_count s) eqn:Ho; simpl; rewrite ?Ho; by repeat split.
Qed.

Lemma labels_in_sync_ext (s s' : FlashcardApp) :
  to_learn s' = to_learn s → original_count s' = original_count s →
  cards_learned_today s' = cards_learned_today s →
  progress_label (ui s') = progress_label (ui s) →
  progress_var (ui s') = progress_var (ui s) →
  stats_label (ui s') = stats_label (ui s) →
  labels_in_sync s → labels_in_sync s'.
Proof.
  intros Hl Ho Hc Hpl Hpv Hsl (H1 & H2 & H3).
  unfold labels_in_sync, _get_progress_text in *.
  rewrite Hl, Ho, Hc, Hpl, Hpv, Hsl. done.
Qed.

(** The three events that only turn the card. *)
Lemma turn_frame (o : Op) (s : FlashcardApp) (w : World) :
  o = ManualFlip ∨ o = TimerFires ∨ (∃ checked, o = ToggleAutoFlip checked) →
  (step o (s, w)).2 = w ∧
  same_store s (step o (s, w)).1 ∧
  same_labels s (step o (s, w)).1 ∧
  current_card (step o (s, w)).1 = current_card s.
Proof.
  intros [->|[->|[checked ->]]]; simpl.
  - unfold manual_flip.
    destruct (flip_timer s); simpl; destruct (is_flipped s); by repeat split.
  - destruct (flip_timer s); by repeat split.
  - unfold _toggle_auto_flip. simpl.
    destruct (negb checked && flip_timer s); by repeat split.
Qed.

Lemma truthy_opt_true (o : option VocabItem) :
  truthy_opt o = true ↔ ∃ x, o = Some x ∧ x ≠ ∅.
Proof.
  destruct o as [x|]; simpl.
  - rewrite truthy_true. split; [by exists x|]. by intros (? & [= <-] & ?).
  - split; [done|]. by intros (? & ? & ?).
Qed.

(** Whatever holds at the start and is kept by every allowed event holds at
    the end of a session of allowed events. *)
Lemma run_invariant (allowed : Op → bool) (P : FlashcardApp * World → Prop) :
  (∀ o sw, allowed o = true → P sw → P (step o sw)) →
  ∀ ops sw, forallb allowed ops = true → P sw → P (run ops sw).
Proof.
  intros Hstep ops. unfold run.
  induction ops as [|o ops IH]; intros sw Hall Hsw; [done|].
  simpl in Hall. apply andb_true_iff in Hall as [Ho Hall].
  simpl. apply IH; [done|]. by apply Hstep.
Qed.

Lemma forallb_any (ops : list Op) : forallb (λ _, true) ops = true.
Proof. by induction ops. Qed.

(** ** The files *)

Lemma undo_last_files (s : FlashcardApp) (w : World) :
  ORIGINAL_FILE (undo_last s w).2 = ORIGINAL_FILE w ∧
  denied (undo_last s w).2 = denied w.
Proof.
  destruct (truthy_opt (last_removed s)) eqn:Hr.
  - apply truthy_opt_true in Hr as (x & Hr & Hx).
    destruct (undo_last_anatomy s w x Hr Hx) as (s1 & -> & _). simpl.
    apply _save_progress_original.
  - by rewrite undo_last_idle.
Qed.

Lemma is_known_files (draw : nat) (s : FlashcardApp) (w : World) :
  ORIGINAL_FILE (is_known draw s w).2 = ORIGINAL_FILE w ∧
  denied (is_known draw s w).2 = denied w.
Proof.
  destruct (decide (current_card s = ∅)) as [Hc|Hc].
  { by rewrite is_known_noop by auto. }
  destruct (decide (to_learn s = [])) as [Hl|Hl].
  { by rewrite is_known_noop by auto. }
  by destruct (is_known_store draw s w Hc Hl) as (_ & _ & _ & _ & _ & -> & ->).
Qed.

Lemma reset_progress_files (answer : bool) (draw : nat) (s : FlashcardApp)
    (w : World) :
  ORIGINAL_FILE (reset_progress answer draw s w).2 = ORIGINAL_FILE w ∧
  denied (reset_progress answer draw s w).2 = denied w.
Proof.
  destruct answer; [|done].
  destruct (reset_unlink w) as [w0|e] eqn:Hu.
  - rewrite (reset_progress_anatomy draw s w w0 Hu).
    destruct (reset_unlink_files w w0 Hu) as (_ & <- & <- & _).
    destruct (_load_data_files w0) as (_ & <- & <-).
    destruct (is_empty (_load_data w0).1); simpl; [done|].
    by destruct (next_card_files draw
      (_update_stats (set_cards_learned_today 0
         (set_original_count (len (_load_data w0).1)
            (set_to_learn (_load_data w0).1 s)))) (_load_data w0).2)
      as (_ & -> & ->).
  - by rewrite (reset_progress_failed _ _ _ e).
Qed.

Lemma step_files (o : Op) (sw : FlashcardApp * World) :
  ORIGINAL_FILE (step o sw).2 = ORIGINAL_FILE sw.2 ∧
  denied (step o sw).2 = denied sw.2.
Proof.
  destruct sw as [s w]. destruct o.
  - simpl. by destruct (next_card_files draw s w) as (_ & -> & ->).
  - apply is_known_files.
  - by destruct (turn_frame ManualFlip s w) as (-> & _); [auto|].
  - by destruct (turn_frame TimerFires s w) as (-> & _); [auto|].
  - by destruct (turn_frame (ToggleAutoFlip checked) s w) as (-> & _); [eauto|].
  - apply undo_last_files.
  - apply reset_progress_files.
  - apply _save_progress_original.
Qed.

Lemma __init___files (draw : nat) (w : World) :
  ORIGINAL_FILE (__init__ draw w).2 = ORIGINAL_FILE w ∧
  denied (__init__ draw w).2 = denied w.
Proof.
  unfold __init__. destruct (_load_data_files w) as (_ & Hg & Hd).
  destruct (_load_data w) as [data w0]. simpl in Hg, Hd.
  cbn -[_update_progress_bar next_card is_empty].
  match goal with |- context [is_empty ?l] => destruct (is_empty l) end.
  - simpl. by rewrite Hg, Hd.
  - match goal with |- context [next_card draw ?s0 w0] =>
      destruct (next_card_files draw s0 w0) as (_ & -> & ->) end.
    by rewrite Hg, Hd.
Qed.

(** X1. From the start of the program on, whatever the user does, the
    original dataset file is what it was: no method writes or deletes it. *)
Theorem original_file_untouched (ops : list Op) (draw : nat) (w : World) :
  ORIGINAL_FILE (run ops (__init__ draw w)).2 = ORIGINAL_FILE w.
Proof.
  destruct (__init___files draw w) as [<- _].
  apply (run_invariant (λ _, true)
           (λ sw, ORIGINAL_FILE sw.2 = ORIGINAL_FILE (__init__ draw w).2));
    [|apply forallb_any|done].
  intros o sw _ <-. apply step_files.
Qed.

(** ** The labels and the undo button *)

Lemma display_in_sync_ext (s s' : FlashcardApp) :
  same_store s s' → same_labels s s' → display_in_sync s → display_in_sync s'.
Proof.
  intros (Hl & Ho & Hc & Hr) (Hpl & Hpv & Hsl & Hb) [Hsync Hundo]. split.
  - by apply (labels_in_sync_ext s s').
  - unfold undo_button_in_sync in *. by rewrite Hb, Hr.
Qed.

Lemma is_known_display (draw : nat) (s : FlashcardApp) (w : World) :
  display_in_sync s → display_in_sync (is_known draw s w).1.
Proof.
  intros Hs.
  destruct (decide (current_card s = ∅)) as [Hc|Hc].
  { by rewrite is_known_noop by auto. }
  destruct (decide (to_learn s = [])) as [Hl|Hl].
  { by rewrite is_known_noop by auto. }
  destruct (is_known_anatomy draw s w Hc Hl)
    as (s1 & -> & _ & _ & _ & Hr1 & _ & Hb1).
  apply (display_in_sync_ext (_update_stats s1));
    [apply next_card_store|apply next_card_labels|].
  destruct (_update_stats_labels s1) as [Hsync Hb].
  destruct (_update_stats_store s1) as [(_ & _ & _ & Hr) _].
  split; [done|]. unfold undo_button_in_sync.
  rewrite Hb, Hb1, Hr, Hr1. simpl. symmetry. by apply truthy_true.
Qed.

Lemma undo_last_display (s : FlashcardApp) (w : World) :
  display_in_sync s → display_in_sync (undo_last s w).1.
Proof.
  intros Hs. destruct (truthy_opt (last_removed s)) eqn:Hr.
  - apply truthy_opt_true in Hr as (x & Hr & Hx).
    destruct (undo_last_anatomy s w x Hr Hx) as (s1 & -> & _).
    destruct (_update_stats_labels s1) as [Hsync _]. split; [|done].
    revert Hsync. apply labels_in_sync_ext; reflexivity.
  - by rewrite undo_last_idle.
Qed.

Lemma reset_progress_display (answer : bool) (draw : nat) (s : FlashcardApp)
    (w : World) :
  display_in_sync s → display_in_sync (reset_progress answer draw s w).1.
Proof.
  intros [Hsync Hundo]. destruct answer; [|done].
  destruct (reset_unlink w) as [w0|e] eqn:Hu.
  - rewrite (reset_progress_anatomy draw s w w0 Hu).
    set (s0 := set_cards_learned_today 0 _).
    assert (Hs1 : display_in_sync (_update_stats s0)).
    { destruct (_update_stats_labels s0) as [Hl Hb].
      destruct (_update_stats_store s0) as [(_ & _ & _ & Hr) _].
      split; [done|]. unfold undo_button_in_sync. by rewrite Hb, Hr. }
    destruct (is_empty (_load_data w0).1); simpl; [done|].
    revert Hs1. apply display_in_sync_ext;
      [apply next_card_store|apply next_card_labels].
  - by rewrite (reset_progress_failed _ _ _ e).
Qed.

Lemma step_display (o : Op) (sw : FlashcardApp * World) :
  display_in_sync sw.1 → display_in_sync (step o sw).1.
Proof.
  destruct sw as [s w]. intros Hs. destruct o.
  - revert Hs. apply display_in_sync_ext;
      [apply next_card_store|apply next_card_labels].
  - by apply is_known_display.
  - destruct (turn_frame ManualFlip s w) as (_ & ? & ? & _); [auto|].
    by apply (display_in_sync_ext s).
  - destruct (turn_frame TimerFires s w) as (_ & ? & ? & _); [auto|].
    by apply (display_in_sync_ext s).
  - destruct (turn_frame (ToggleAutoFlip checked) s w) as (_ & ? & ? & _); [eauto|].
    by apply (display_in_sync_ext s).
  - by apply undo_last_display.
  - by apply reset_progress_display.
  - done.
Qed.

Lemma __init___display (draw : nat) (w : World) :
  display_in_sync (__init__ draw w).1.
Proof.
  unfold __init__. destruct (_load_data w) as [data w0].
  cbn -[_update_progress_bar next_card is_empty _get_progress_text].
  match goal with |- context [is_empty (to_learn ?s)] => set (s0 := s) end.
  assert (Hs0 : display_in_sync s0).
  { subst s0. unfold display_in_sync, labels_in_sync, undo_button_in_sync,
      _update_progress_bar, _get_progress_text. simpl.
    destruct (0 <? len data) eqn:Ho; simpl; rewrite ?Ho; by repeat split. }
  destruct (is_empty (to_learn s0)).
  - revert Hs0. apply display_in_sync_ext; by repeat split.
  - revert Hs0. apply display_in_sync_ext;
      [apply next_card_store|apply next_card_labels].
Qed.

Lemma session_display (ops : list Op) (draw : nat) (w : World) :
  display_in_sync (run ops (__init__ draw w)).1.
Proof.
  apply (run_invariant (λ _, true) (λ sw, display_in_sync sw.1));
    [|apply forallb_any|apply __init___display].
  intros o sw _. apply step_display.
Qed.

(** X2. At every point of a session the progress label shows the figures of
    [_get_progress_text] for the object as it is, the session label shows
    [cards_learned_today], and the progress bar shows the percentage whenever
    the total is positive. *)
Theorem labels_follow_the_store (ops : list Op) (draw : nat) (w : World) :
  let s := (run ops (__init__ draw w)).1 in
  progress_label (ui s) = _get_progress_text s ∧
  stats_label (ui s) = cards_learned_today s ∧
  (0 < original_count s → progress_var (ui s) = (_get_progress_text s).2).
Proof.
  intros s. destruct (session_display ops draw w) as [(H1 & H2 & H3) _].
  fold s in H1, H2, H3. split; [done|]. split; [done|].
  intros Ho. apply H3. by apply Z.ltb_lt.
Qed.

(** X3. At every point of a session the undo button is enabled exactly when
    the undo slot holds a row, a confirmed reset included: the reset leaves
    both as they are. *)
Theorem undo_button_follows_the_slot (ops : list Op) (draw : nat) (w : World) :
  let s := (run ops (__init__ draw w)).1 in
  undo_button (ui s) = true ↔ ∃ x, last_removed s = Some x ∧ x ≠ ∅.
Proof.
  intros s. destruct (session_display ops draw w) as [_ Hb].
  fold s in Hb. unfold undo_button_in_sync in Hb. rewrite Hb.
  apply truthy_opt_true.
Qed.

(** ** Sessions without a confirmed reset *)

Lemma next_card_current (draw : nat) (s : FlashcardApp) (w : World) :
  match to_learn s with
  | [] => current_card (next_card draw s w).1 = current_card s
  | _ :: _ => current_card (next_card draw s w).1 ∈ to_learn s
  end.
Proof.
  unfold next_card. destruct (to_learn s) as [|row rows] eqn:Hl.
  - destruct (flip_timer s); simpl; by rewrite Hl.
  - destruct (choice_is_Some draw (row :: rows)) as [card Hc]; [done|].
    pose proof (choice_elem_of _ _ _ Hc) as Hin.
    destruct (flip_timer s); simpl; rewrite Hl; simpl; rewrite Hc;
      destruct (auto_flip_enabled s); by simpl.
Qed.

Lemma consistent_member (s : FlashcardApp) :
  consistent s → to_learn s ≠ [] → current_card s ∈ to_learn s.
Proof. intros ([Hin|[Hl _]] & _) Hne; [done|by destruct Hne]. Qed.

Lemma next_card_consistent (draw : nat) (s : FlashcardApp) (w : World) :
  (to_learn s = [] → last_removed s = None ∨ last_removed s = Some (current_card s)) →
  (∀ x, last_removed s = Some x → x ≠ ∅ ∧ 1 ≤ cards_learned_today s) →
  cards_learned_today s = original_count s - len (to_learn s) →
  0 ≤ cards_learned_today s →
  consistent (next_card draw s w).1.
Proof.
  intros Hslot Hx Heq Hpos.
  destruct (next_card_store draw s w) as (Hl & Ho & Hc & Hr).
  pose proof (next_card_current draw s w) as Hcur.
  unfold consistent. rewrite Hl, Ho, Hc, Hr.
  split; [|done].
  destruct (to_learn s) as [|row rows] eqn:Hs.
  - right. split; [done|]. rewrite Hcur. by apply Hslot.
  - by left.
Qed.

Lemma is_known_consistent (draw : nat) (s : FlashcardApp) (w : World) :
  consistent s → consistent (is_known draw s w).1.
Proof.
  intros Hs.
  destruct (decide (current_card s = ∅)) as [Hc|Hc].
  { by rewrite is_known_noop by auto. }
  destruct (decide (to_learn s = [])) as [Hl|Hl].
  { by rewrite is_known_noop by auto. }
  pose proof (consistent_member s Hs Hl) as Hin.
  destruct Hs as (_ & _ & Heq & Hpos).
  destruct (is_known_anatomy draw s w Hc Hl)
    as (s1 & -> & Hl1 & Ho1 & Hc1 & Hr1 & Hcur1 & _).
  apply contains_true in Hin as Hcon. rewrite Hcon in Hl1.
  apply remove_is_Some in Hin as [l' Hrm]. rewrite Hrm in Hl1. simpl in Hl1.
  apply remove_len in Hrm.
  destruct (_update_stats_store s1) as [(Hl2 & Ho2 & Hc2 & Hr2) Hcur2].
  apply next_card_consistent; rewrite ?Hl2, ?Ho2, ?Hc2, ?Hr2, ?Hcur2,
    ?Hl1, ?Ho1, ?Hc1, ?Hr1, ?Hcur1.
  - auto.
  - intros x [= <-]. split; [done|lia].
  - lia.
  - lia.
Qed.

Lemma undo_last_consistent (s : FlashcardApp) (w : World) :
  consistent s → consistent (undo_last s w).1.
Proof.
  intros Hs. destruct (truthy_opt (last_removed s)) eqn:Hr.
  - apply truthy_opt_true in Hr as (x & Hr & Hx).
    destruct Hs as (Hcur & Hslot & Heq & Hpos).
    destruct (Hslot x Hr) as [_ Hone].
    destruct (undo_last_anatomy s w x Hr Hx) as (s1 & -> & Hl1 & Ho1 & Hc1 & Hcur1).
    destruct (_update_stats_store s1) as [(Hl2 & Ho2 & Hc2 & _) Hcur2].
    unfold consistent. cbn -[_update_stats].
    rewrite Hl2, Ho2, Hc2, Hcur2, Hl1, Ho1, Hc1, Hcur1, len_app_one.
    split; [|split; [done|lia]].
    left. apply elem_of_app.
    destruct Hcur as [Hin|[Hnil [Hnone|Hsome]]]; [by left|congruence|].
    right. rewrite Hr in Hsome. injection Hsome as ->. by apply list_elem_of_singleton.
  - by rewrite undo_last_idle.
Qed.

Lemma step_consistent (o : Op) (sw : FlashcardApp * World) :
  is_confirmed_reset o = false → consistent sw.1 → consistent (step o sw).1.
Proof.
  destruct sw as [s w]. intros Ho Hs. cbn [fst] in Hs.
  assert (Hturn : ∀ s', same_store s s' → current_card s' = current_card s →
                        consistent s').
  { intros s' (Hl & Hoc & Hc & Hr) Hcur. unfold consistent.
    by rewrite Hl, Hoc, Hc, Hr, Hcur. }
  destruct o.
  - destruct Hs as (Hcur & Hslot & Heq & Hpos). simpl.
    apply next_card_consistent; try done.
    intros Hnil. destruct Hcur as [Hin|[_ Hcur]]; [|done].
    rewrite Hnil in Hin. by apply elem_of_nil in Hin.
  - by apply is_known_consistent.
  - destruct (turn_frame ManualFlip s w) as (_ & ? & _ & ?); [auto|]. by apply Hturn.
  - destruct (turn_frame TimerFires s w) as (_ & ? & _ & ?); [auto|]. by apply Hturn.
  - destruct (turn_frame (ToggleAutoFlip checked) s w) as (_ & ? & _ & ?); [eauto|].
    by apply Hturn.
  - by apply undo_last_consistent.
  - destruct answer; [discriminate|done].
  - done.
Qed.

Lemma __init___consistent (draw : nat) (w : World) :
  consistent (__init__ draw w).1.
Proof.
  unfold __init__. destruct (_load_data w) as [data w0].
  cbn -[_update_progress_bar next_card is_empty _get_progress_text].
  match goal with |- context [is_empty (to_learn ?s)] => set (s0 := s) end.
  assert (Hs0 : to_learn s0 = data ∧ original_count s0 = len data ∧
                cards_learned_today s0 = 0 ∧ last_removed s0 = None ∧
                current_card s0 = ∅).
  { subst s0. unfold _update_progress_bar. simpl. by destruct (0 <? len data). }
  destruct Hs0 as (Hl & Ho & Hc & Hr & Hcur).
  destruct (is_empty (to_learn s0)) eqn:He.
  - apply is_empty_true in He. unfold consistent. simpl.
    rewrite Hr, Hc, Ho, Hl. rewrite Hl in He. rewrite He.
    split; [right; auto|]. split; [done|]. by unfold len.
  - apply next_card_consistent; rewrite ?Hr, ?Hc, ?Ho, ?Hl; [auto|done|lia|done].
Qed.

Lemma session_consistent (ops : list Op) (draw : nat) (w : World) :
  forallb (λ o, negb (is_confirmed_reset o)) ops = true →
  consistent (run ops (__init__ draw w)).1.
Proof.
  intros Hall.
  apply (run_invariant (λ o, negb (is_confirmed_reset o))
           (λ sw, consistent sw.1)); [|done|apply __init___consistent].
  intros o sw Ho. apply step_consistent. by apply negb_true_iff.
Qed.

(** X4. In a session in which no reset is confirmed, the session counter and
    the [learned] figure of the progress text are the same number, and it
    lies between zero and the total: the percentage stays within 0 and 100. *)
Theorem counter_is_learned_total (ops : list Op) (draw : nat) (w : World) :
  forallb (λ o, negb (is_confirmed_reset o)) ops = true →
  let s := (run ops (__init__ draw w)).1 in
  cards_learned_today s = learned_total s ∧
  0 ≤ learned_total s ≤ original_count s.
Proof.
  intros Hall s.
  destruct (session_consistent ops draw w Hall) as (_ & _ & Heq & Hpos).
  fold s in Heq, Hpos. rewrite learned_total_eq.
  pose proof (len_nonneg (to_learn s)). lia.
Qed.

(** X5. In a session in which no reset is confirmed, the card on display
    is a row of the working list whenever the list is not empty, so an
    [is_known] that passes its guard takes that row out: the list loses one
    copy of the card each time the counter goes up. *)
Theorem is_known_never_misses (ops : list Op) (draw draw' : nat) (w : World) :
  forallb (λ o, negb (is_confirmed_reset o)) ops = true →
  let sw := run ops (__init__ draw w) in
  let s' := (is_known draw' sw.1 sw.2).1 in
  current_card sw.1 ≠ ∅ → to_learn sw.1 ≠ [] →
  current_card sw.1 ∈ to_learn sw.1 ∧
  to_learn sw.1 ≡ₚ current_card sw.1 :: to_learn s' ∧
  cards_learned_today s' = cards_learned_today sw.1 + 1.
Proof.
  intros Hall sw s' Hc Hl.
  pose proof (consistent_member sw.1 (session_consistent ops draw w Hall) Hl) as Hin.
  split; [done|].
  by destruct (is_known_member draw' sw.1 sw.2 (current_card sw.1) eq_refl Hc Hin)
    as (_ & ? & ? & _).
Qed.

(** ** Start and reset *)

(** X6. Whatever is on the disk, the program starts with the total set to
    the number of rows it loaded, so the progress text reads zero learned and
    zero per cent, also when the rows come from a progress file that earlier
    sessions had shortened. *)
Theorem progress_starts_at_zero (draw : nat) (w : World) :
  let s := (__init__ draw w).1 in
  let '(learned, total, percentage) := _get_progress_text s in
  learned = 0 ∧ total = len (_load_data w).1 ∧ (percentage == 0)%Q.
Proof.
  intros s. destruct (__init___store draw w) as (Hl & Ho & _).
  fold s in Hl, Ho. unfold _get_progress_text. rewrite Ho, Hl.
  split; [lia|]. split; [done|].
  destruct (0 <? len (_load_data w).1); [|reflexivity].
  unfold percent. rewrite Z.sub_diag. unfold Qdiv.
  by rewrite !Qmult_0_l.
Qed.

Lemma load_resolved_original (w w' : World) :
  ORIGINAL_FILE w' = ORIGINAL_FILE w →
  (load_resolved (resolve_original w') w').1 =
  (load_resolved (resolve_original w) w).1.
Proof.
  intros Hg. unfold resolve_original. rewrite Hg.
  destruct (ORIGINAL_FILE w) as [f|]; [|done]. by destruct (read_csv f).
Qed.

(** X7. A confirmed reset that could delete the progress file, done twice in
    a row, leaves the working list, the total and the counter of the first
    one: the second finds no progress file and loads the same original
    dataset again. *)
Theorem reset_progress_twice (draw draw' : nat) (s : FlashcardApp) (w w0 : World) :
  reset_unlink w = Return w0 →
  let sw1 := reset_progress true draw s w in
  let sw2 := reset_progress true draw' sw1.1 sw1.2 in
  to_learn sw2.1 = to_learn sw1.1 ∧
  original_count sw2.1 = original_count sw1.1 ∧
  cards_learned_today sw2.1 = cards_learned_today sw1.1 ∧
  PROGRESS_FILE sw2.2 = None.
Proof.
  intros Hu sw1 sw2.
  destruct (reset_progress_done draw s w w0 Hu) as (Hp1 & Hg1 & Hl1 & Ho1 & Hc1 & _).
  fold sw1 in Hp1, Hg1, Hl1, Ho1, Hc1.
  assert (Hu1 : reset_unlink sw1.2 = Return sw1.2).
  { unfold reset_unlink. by rewrite Hp1. }
  destruct (reset_progress_done draw' sw1.1 sw1.2 sw1.2 Hu1)
    as (Hp2 & _ & Hl2 & Ho2 & Hc2 & _).
  fold sw2 in Hp2, Hl2, Ho2, Hc2.
  assert (Heq : to_learn sw2.1 = to_learn sw1.1).
  { rewrite Hl2, Hl1. by apply load_resolved_original. }
  by rewrite Ho2, Ho1, Hc2, Hc1, Heq.
Qed.

(** X8. After a confirmed reset that could delete the progress file, the
    working list, the total and the session counter are those of a program
    started on the same disk without the progress file. *)
Theorem reset_progress_as_fresh_start (draw draw' : nat) (s : FlashcardApp)
    (w w0 : World) :
  reset_unlink w = Return w0 →
  let s1 := (reset_progress true draw s w).1 in
  let s2 := (__init__ draw' w0).1 in
  PROGRESS_FILE w0 = None ∧
  to_learn s1 = to_learn s2 ∧
  original_count s1 = original_count s2 ∧
  cards_learned_today s1 = cards_learned_today s2.
Proof.
  intros Hu s1 s2.
  destruct (reset_progress_done draw s w w0 Hu) as (_ & _ & Hl1 & Ho1 & Hc1 & _).
  fold s1 in Hl1, Ho1, Hc1.
  destruct (__init___store draw' w0) as (Hl2 & Ho2 & Hc2 & _).
  fold s2 in Hl2, Ho2, Hc2.
  destruct (reset_unlink_files w w0 Hu) as (Hp0 & Hg0 & _).
  assert (Heq : to_learn s1 = to_learn s2).
  { rewrite Hl1, Hl2, _load_data_resolve.
    assert (Hres : resolve w0 = resolve_original w0).
    { unfold resolve. by rewrite Hp0. }
    rewrite Hres. symmetry.
    transitivity (load_resolved (resolve_original w0) w).1.
    - unfold resolve_original. destruct (ORIGINAL_FILE w0) as [f|]; [|done].
      by destruct (read_csv f).
    - unfold resolve_original. rewrite Hg0.
      destruct (ORIGINAL_FILE w) as [f|]; [|done]. by destruct (read_csv f). }
  split; [done|]. split; [done|].
  by rewrite Ho1, Ho2, Hc1, Hc2, Heq, <- Hl2.
Qed.

(** ** Undo *)

(** X9. A second [undo_last] in a row does nothing: the slot has one place
    and the first undo empties it. *)
Theorem undo_last_twice (s : FlashcardApp) (w : World) :
  undo_last (undo_last s w).1 (undo_last s w).2 = undo_last s w.
Proof.
  destruct (truthy_opt (last_removed s)) eqn:Hr.
  - apply truthy_opt_true in Hr as (x & Hr & Hx).
    destruct (undo_last_anatomy s w x Hr Hx) as (s1 & Hu & _).
    rewrite Hu. by apply undo_last_idle.
  - rewrite !undo_last_idle; try done. by rewrite undo_last_idle.
Qed.

(** ** The progress file after a change *)

Lemma _load_data_saved (w : World) (l : list VocabItem) :
  PROGRESS_FILE w = Some (to_csv l) → csv_faithful l → (_load_data w).1 = l.
Proof.
  intros Hp Hcsv. unfold _load_data, _load_data_try. rewrite Hp. simpl.
  destruct l as [|row rows]; simpl in Hcsv.
  - by destruct Hcsv as [e ->].
  - by rewrite Hcsv.
Qed.

Lemma undo_last_saved (s : FlashcardApp) (w : World) (x : VocabItem) :
  last_removed s = Some x → x ≠ ∅ → denied w = None →
  PROGRESS_FILE (undo_last s w).2 = Some (to_csv (to_learn (undo_last s w).1)).
Proof.
  intros Hr Hx Hd.
  destruct (undo_last_anatomy s w x Hr Hx) as (s1 & -> & _).
  destruct (_update_stats_store s1) as [(Hl & _) _].
  cbn -[_update_stats]. rewrite Hl. by rewrite _save_progress_written.
Qed.

(** X10. Whenever an event other than a confirmed reset changes the working
    list while writing is allowed, the progress file holds the new list: a
    program started next, with pandas reading back what it wrote, loads
    exactly that list. *)
Theorem changed_list_is_saved (o : Op) (sw : FlashcardApp * World) :
  is_confirmed_reset o = false → denied sw.2 = None →
  to_learn (step o sw).1 ≠ to_learn sw.1 →
  csv_faithful (to_learn (step o sw).1) →
  PROGRESS_FILE (step o sw).2 = Some (to_csv (to_learn (step o sw).1)) ∧
  (_load_data (step o sw).2).1 = to_learn (step o sw).1.
Proof.
  destruct sw as [s w]. cbn [fst snd]. intros Ho Hd Hch Hcsv.
  assert (Hp : PROGRESS_FILE (step o (s, w)).2 =
               Some (to_csv (to_learn (step o (s, w)).1))).
  { clear Hcsv. destruct o; cbn [step] in *.
    - destruct Hch. by destruct (next_card_store draw s w) as (-> & _).
    - destruct (decide (current_card s = ∅)) as [Hc|Hc].
      { destruct Hch. by rewrite is_known_noop by auto. }
      destruct (decide (to_learn s = [])) as [Hl|Hl].
      { destruct Hch. by rewrite is_known_noop by auto. }
      destruct (is_known_store draw s w Hc Hl) as (_ & _ & _ & _ & -> & _).
      by rewrite Hd.
    - destruct (turn_frame ManualFlip s w) as (_ & (Hl & _) & _); [auto|].
      destruct Hch. exact Hl.
    - destruct (turn_frame TimerFires s w) as (_ & (Hl & _) & _); [auto|].
      destruct Hch. exact Hl.
    - destruct (turn_frame (ToggleAutoFlip checked) s w) as (_ & (Hl & _) & _); [eauto|].
      destruct Hch. exact Hl.
    - destruct (truthy_opt (last_removed s)) eqn:Hr.
      + apply truthy_opt_true in Hr as (x & Hr & Hx). by apply (undo_last_saved s w x).
      + destruct Hch. by rewrite undo_last_idle.
    - destruct answer; [discriminate|]. by destruct Hch.
    - by destruct Hch. }
  split; [done|]. by apply _load_data_saved.
Qed.

Lemma next_card_shown (draw : nat) (s : FlashcardApp) (w : World) :
  shown (next_card draw s w).2 =
    shown w ++
    (if is_empty (to_learn s)
     then [Congratulations (original_count s) (cards_learned_today s)]
     else []).
Proof.
  unfold next_card.
  destruct (flip_timer s); simpl;
    (destruct (is_empty (to_learn s)); simpl; [done|]);
    (destruct (choice draw (to_learn s)); simpl; [|by rewrite app_nil_r]);
    destruct (auto_flip_enabled s); simpl; by rewrite app_nil_r.
Qed.

(** X11. When the write of the progress file is refused before anything is
    written (the directory cannot be made or the file cannot be opened),
    [is_known] still has its effect in memory: the card goes into the undo
    slot and the counter goes up, the file on disk is left as it was and the
    error is printed. *)
Theorem is_known_when_write_refused (draw : nat) (s : FlashcardApp) (w : World)
    (e : Exception) :
  denied w = Some e → current_card s ≠ ∅ → to_learn s ≠ [] →
  let s' := (is_known draw s w).1 in
  let w' := (is_known draw s w).2 in
  last_removed s' = Some (current_card s) ∧
  cards_learned_today s' = cards_learned_today s + 1 ∧
  (current_card s ∈ to_learn s → to_learn s ≡ₚ current_card s :: to_learn s') ∧
  PROGRESS_FILE w' = PROGRESS_FILE w ∧
  SaveFailed e ∈ shown w'.
Proof.
  intros Hd Hc Hl s' w'.
  destruct (is_known_store draw s w Hc Hl) as (_ & _ & Hcnt & Hr & Hp & _).
  fold s' in Hcnt, Hr. fold w' in Hp. rewrite Hd in Hp.
  split; [done|]. split; [done|]. split; [|split; [done|]].
  - intros Hin.
    by destruct (is_known_member draw s w (current_card s) eq_refl Hc Hin)
      as (_ & ? & _).
  - subst w'. destruct (is_known_anatomy draw s w Hc Hl) as (s1 & -> & _).
    rewrite next_card_shown, (_save_progress_failed _ _ e Hd). simpl.
    apply elem_of_app. left. apply elem_of_app. right.
    by apply list_elem_of_singleton.
Qed.

(** ** Dealing and turning the card *)

(** X12. The card is drawn with replacement: every row of the working list,
    the one on display included, can be the next card, and the list is the
    same after the draw. *)
Theorem next_card_may_repeat (s : FlashcardApp) (w : World) (c : VocabItem) :
  c ∈ to_learn s →
  ∃ draw, current_card (next_card draw s w).1 = c ∧
          to_learn (next_card draw s w).1 = to_learn s.
Proof.
  intros Hin. destruct (next_card_any_member s w c Hin) as [draw Hc].
  exists draw. split; [done|]. by destruct (next_card_store draw s w) as (-> & _).
Qed.

(** X13. After a manual flip, and after auto-flip is switched off, no
    auto-flip is pending: the timer running out then changes nothing. *)
Theorem no_stale_flip (o : Op) (sw : FlashcardApp * World) :
  o = ManualFlip ∨ o = ToggleAutoFlip false →
  flip_timer (step o sw).1 = false ∧
  step TimerFires (step o sw) = step o sw.
Proof.
  destruct sw as [s w]. intros [->| ->]; simpl.
  - unfold manual_flip.
    destruct (flip_timer s) eqn:Ht; simpl; destruct (is_flipped s); simpl;
      rewrite ?Ht; done.
  - unfold _toggle_auto_flip. simpl.
    destruct (flip_timer s) eqn:Ht; simpl; rewrite ?Ht; done.
Qed.

(** X14. A card that has just been dealt shows its [Urdu] field, blank when
    the row has no such column; one manual flip shows the [English] field
    and a second one brings the front back, with the card and the store
    untouched. *)
Theorem flip_there_and_back (draw : nat) (s : FlashcardApp) (w : World) :
  to_learn s ≠ [] →
  let s0 := (next_card draw s w).1 in
  let s1 := manual_flip s0 in
  let s2 := manual_flip s1 in
  (is_flipped s0 = false ∧ card_title (ui s0) = TitleUrdu ∧
   card_word (ui s0) = default "" (current_card s0 !! "Urdu")) ∧
  (is_flipped s1 = true ∧ card_title (ui s1) = TitleEnglish ∧
   card_word (ui s1) = default "" (current_card s0 !! "English")) ∧
  (is_flipped s2 = false ∧ card_title (ui s2) = TitleUrdu ∧
   card_word (ui s2) = card_word (ui s0)) ∧
  current_card s2 = current_card s0 ∧ same_store s0 s2.
Proof.
  intros Hl s0 s1 s2. subst s0 s1 s2.
  apply is_empty_false in Hl.
  destruct (choice_is_Some draw (to_learn s)) as [card Hc].
  { by apply is_empty_false. }
  destruct (flip_timer s) eqn:Ht; destruct (auto_flip_enabled s) eqn:Ha;
    unfold next_card; rewrite Ht; simpl; rewrite Hl; simpl; rewrite Hc, Ha;
    unfold manual_flip; simpl; repeat (rewrite Ht; simpl); by repeat split.
Qed.

(** ** The last card and the counters *)

(** X15. Marking the only card left as known empties the working list,
    writes the empty list to the progress file and shows the completion
    message with the total and the new session count; after that [is_known]
    does nothing. *)
Theorem is_known_last_card (draw draw' : nat) (s : FlashcardApp) (w : World)
    (x : VocabItem) :
  to_learn s = [x] → current_card s = x → x ≠ ∅ → denied w = None →
  let s' := (is_known draw s w).1 in
  let w' := (is_known draw s w).2 in
  to_learn s' = [] ∧
  PROGRESS_FILE w' = Some (to_csv []) ∧
  shown w' =
    shown w ++ [Congratulations (original_count s) (cards_learned_today s + 1)] ∧
  is_known draw' s' w' = (s', w').
Proof.
  intros Hl Hcur Hx Hd s' w'. subst x.
  assert (Hne : to_learn s ≠ []) by by rewrite Hl.
  destruct (is_known_store draw s w Hx Hne) as (Hl' & _ & _ & _ & Hp & _).
  fold s' in Hl', Hp. fold w' in Hp. rewrite Hd in Hp.
  assert (Hnil : to_learn s' = []).
  { rewrite Hl', Hl. unfold contains.
    rewrite bool_decide_eq_true_2 by (by apply list_elem_of_singleton).
    simpl. by rewrite decide_True. }
  split; [done|]. split; [by rewrite Hp, Hnil|]. split.
  - subst w'. destruct (is_known_anatomy draw s w Hx Hne)
      as (s1 & Heq & Hl1 & Ho1 & Hc1 & _).
    assert (Hs' : to_learn (is_known draw s w).1 = []) by done.
    rewrite Heq in Hs' |- *.
    destruct (next_card_store draw (_update_stats s1) (_save_progress s1 w))
      as (Hl3 & _).
    destruct (_update_stats_store s1) as [(Hl2 & Ho2 & Hc2 & _) _].
    rewrite Hl3 in Hs'.
    rewrite next_card_shown, Hs', Ho2, Hc2, Ho1, Hc1. cbn [is_empty].
    by rewrite _save_progress_written.
  - apply is_known_noop. by right.
Qed.

Lemma step_original_count (o : Op) (sw : FlashcardApp * World) :
  0 ≤ original_count sw.1 → 0 ≤ original_count (step o sw).1.
Proof.
  destruct sw as [s w]. cbn [fst]. intros Hpos. destruct o; cbn [step].
  - by destruct (next_card_store draw s w) as (_ & -> & _).
  - destruct (decide (current_card s = ∅)) as [Hc|Hc].
    { by rewrite is_known_noop by auto. }
    destruct (decide (to_learn s = [])) as [Hl|Hl].
    { by rewrite is_known_noop by auto. }
    by destruct (is_known_store draw s w Hc Hl) as (_ & -> & _).
  - destruct (turn_frame ManualFlip s w) as (_ & (_ & Ho & _) & _); [auto|].
    cbn [step] in Ho. by rewrite Ho.
  - destruct (turn_frame TimerFires s w) as (_ & (_ & Ho & _) & _); [auto|].
    cbn [step] in Ho. by rewrite Ho.
  - destruct (turn_frame (ToggleAutoFlip checked) s w) as (_ & (_ & Ho & _) & _); [eauto|].
    cbn [step] in Ho. by rewrite Ho.
  - destruct (truthy_opt (last_removed s)) eqn:Hr.
    + apply truthy_opt_true in Hr as (x & Hr & Hx).
      by destruct (undo_last_store s w x Hr Hx) as (_ & -> & _).
    + by rewrite undo_last_idle.
  - destruct answer; [|done].
    destruct (reset_unlink w) as [w0|e] eqn:Hu.
    + destruct (reset_progress_done draw s w w0 Hu) as (_ & _ & _ & -> & _).
      apply len_nonneg.
    + by rewrite (reset_progress_failed _ _ _ e).
  - done.
Qed.

(** X16. In every session, resets and undos included, the session counter
    and the total are never negative. *)
Theorem counters_never_negative (ops : list Op) (draw : nat) (w : World) :
  let s := (run ops (__init__ draw w)).1 in
  0 ≤ cards_learned_today s ∧ 0 ≤ original_count s.
Proof.
  apply (run_invariant (λ _, true)
           (λ sw, 0 ≤ cards_learned_today sw.1 ∧ 0 ≤ original_count sw.1));
    [|apply forallb_any|].
  - intros o sw _ [Hc Ho]. split;
      [by apply step_cards_learned_today|by apply step_original_count].
  - destruct (__init___store draw w) as (_ & -> & -> & _).
    split; [done|apply len_nonneg].
Qed.

End Session.

(** * The further properties on the stand-in for pandas *)

Ltac has_fields := apply truthy_true; vm_compute; reflexivity.

Ltac not_empty := apply is_empty_false; vm_compute; reflexivity.

Lemma counter_is_learned_total_witness :
  let ops := [IsKnown 0; UndoLast; NextCard 2; IsKnown 1; ResetProgress false 0] in
  let s := (run ops (__init__ 0 (fresh_disk [salam; shukriya; pani]))).1 in
  forallb (λ o, negb (is_confirmed_reset o)) ops = true ∧
  cards_learned_today s = learned_total s ∧
  0 ≤ learned_total s ≤ original_count s.
Proof.
  intros ops s. split; [reflexivity|].
  exact (counter_is_learned_total ops 0 (fresh_disk [salam; shukriya; pani]) eq_refl).
Defined.

Lemma is_known_never_misses_witness :
  let ops := [IsKnown 0; NextCard 1] in
  let sw := run ops (__init__ 0 (fresh_disk [salam; shukriya; pani])) in
  let s' := (is_known 0 sw.1 sw.2).1 in
  (forallb (λ o, negb (is_confirmed_reset o)) ops = true ∧
   current_card sw.1 ≠ ∅ ∧ to_learn sw.1 ≠ []) ∧
  current_card sw.1 ∈ to_learn sw.1 ∧
  to_learn sw.1 ≡ₚ current_card sw.1 :: to_learn s' ∧
  cards_learned_today s' = cards_learned_today sw.1 + 1.
Proof.
  intros ops sw s'.
  assert (Hc : current_card sw.1 ≠ ∅) by has_fields.
  assert (Hl : to_learn sw.1 ≠ []) by not_empty.
  split; [done|].
  exact (is_known_never_misses ops 0 0 (fresh_disk [salam; shukriya; pani])
           eq_refl Hc Hl).
Defined.

Lemma reset_progress_twice_witness :
  let sw := step (IsKnown 0) (__init__ 0 (fresh_disk [salam; shukriya])) in
  let w0 := @mkWorld text_pandas None (ORIGINAL_FILE sw.2) (denied sw.2) (shown sw.2) in
  let sw1 := reset_progress true 1 sw.1 sw.2 in
  let sw2 := reset_progress true 0 sw1.1 sw1.2 in
  reset_unlink sw.2 = Return w0 ∧
  to_learn sw2.1 = to_learn sw1.1 ∧
  original_count sw2.1 = original_count sw1.1 ∧
  cards_learned_today sw2.1 = cards_learned_today sw1.1 ∧
  PROGRESS_FILE sw2.2 = None.
Proof.
  intros sw w0 sw1 sw2.
  assert (Hu : reset_unlink sw.2 = Return w0) by by_evaluation.
  split; [done|].
  exact (reset_progress_twice 1 0 sw.1 sw.2 w0 Hu).
Defined.

Lemma reset_progress_as_fresh_start_witness :
  let sw := step (IsKnown 0) (__init__ 0 (fresh_disk [salam; shukriya])) in
  let w0 := @mkWorld text_pandas None (ORIGINAL_FILE sw.2) (denied sw.2) (shown sw.2) in
  let s1 := (reset_progress true 1 sw.1 sw.2).1 in
  let s2 := (__init__ 0 w0).1 in
  reset_unlink sw.2 = Return w0 ∧
  PROGRESS_FILE w0 = None ∧
  to_learn s1 = to_learn s2 ∧
  original_count s1 = original_count s2 ∧
  cards_learned_today s1 = cards_learned_today s2.
Proof.
  intros sw w0 s1 s2.
  assert (Hu : reset_unlink sw.2 = Return w0) by by_evaluation.
  split; [done|].
  exact (reset_progress_as_fresh_start 1 0 sw.1 sw.2 w0 Hu).
Defined.

Lemma changed_list_is_saved_witness :
  let o := IsKnown 0 in
  let sw := __init__ 0 (fresh_disk [salam; shukriya]) in
  (is_confirmed_reset o = false ∧ denied sw.2 = None ∧
   to_learn (step o sw).1 ≠ to_learn sw.1 ∧
   @csv_faithful text_pandas (to_learn (step o sw).1)) ∧
  PROGRESS_FILE (step o sw).2 = Some (to_csv (to_learn (step o sw).1)) ∧
  (_load_data (step o sw).2).1 = to_learn (step o sw).1.
Proof.
  intros o sw.
  assert (Hd : denied sw.2 = None) by by_evaluation.
  assert (Hch : to_learn (step o sw).1 ≠ to_learn sw.1).
  { intros Heq. apply (f_equal length) in Heq. vm_compute in Heq. discriminate. }
  assert (Hf : @csv_faithful text_pandas (to_learn (step o sw).1))
    by apply text_pandas_faithful.
  split; [exact (conj eq_refl (conj Hd (conj Hch Hf)))|].
  exact (changed_list_is_saved o sw eq_refl Hd Hch Hf).
Defined.

Lemma is_known_when_write_refused_witness :
  let sw := __init__ 0 (locked_disk [salam; shukriya]) in
  let e := Exc "Permission denied" in
  let s' := (is_known 0 sw.1 sw.2).1 in
  let w' := (is_known 0 sw.1 sw.2).2 in
  (denied sw.2 = Some e ∧ current_card sw.1 ≠ ∅ ∧ to_learn sw.1 ≠ []) ∧
  last_removed s' = Some (current_card sw.1) ∧
  cards_learned_today s' = cards_learned_today sw.1 + 1 ∧
  (current_card sw.1 ∈ to_learn sw.1 →
   to_learn sw.1 ≡ₚ current_card sw.1 :: to_learn s') ∧
  PROGRESS_FILE w' = PROGRESS_FILE sw.2 ∧
  SaveFailed e ∈ shown w'.
Proof.
  intros sw e s' w'.
  assert (Hd : denied sw.2 = Some e) by by_evaluation.
  assert (Hc : current_card sw.1 ≠ ∅) by has_fields.
  assert (Hl : to_learn sw.1 ≠ []) by not_empty.
  split; [done|].
  exact (is_known_when_write_refused 0 sw.1 sw.2 e Hd Hc Hl).
Defined.

Lemma next_card_may_repeat_witness :
  let sw := __init__ 0 (fresh_disk [salam; shukriya]) in
  current_card sw.1 ∈ to_learn sw.1 ∧
  ∃ draw, current_card (next_card draw sw.1 sw.2).1 = current_card sw.1 ∧
          to_learn (next_card draw sw.1 sw.2).1 = to_learn sw.1.
Proof.
  intros sw.
  assert (Hin : current_card sw.1 ∈ to_learn sw.1) by member.
  split; [done|].
  exact (next_card_may_repeat sw.1 sw.2 (current_card sw.1) Hin).
Defined.

Lemma no_stale_flip_witness :
  let sw := __init__ 0 (fresh_disk [salam; shukriya]) in
  (ManualFlip = ManualFlip ∨ ManualFlip = ToggleAutoFlip false) ∧
  flip_timer (step ManualFlip sw).1 = false ∧
  step TimerFires (step ManualFlip sw) = step ManualFlip sw.
Proof.
  intros sw. split; [by left|].
  exact (no_stale_flip ManualFlip sw (or_introl eq_refl)).
Defined.

Lemma flip_there_and_back_witness :
  let sw := __init__ 0 (fresh_disk [salam; shukriya]) in
  let s0 := (next_card 1 sw.1 sw.2).1 in
  let s1 := manual_flip s0 in
  let s2 := manual_flip s1 in
  to_learn sw.1 ≠ [] ∧
  (is_flipped s0 = false ∧ card_title (ui s0) = TitleUrdu ∧
   card_word (ui s0) = default "" (current_card s0 !! "Urdu")) ∧
  (is_flipped s1 = true ∧ card_title (ui s1) = TitleEnglish ∧
   card_word (ui s1) = default "" (current_card s0 !! "English")) ∧
  (is_flipped s2 = false ∧ card_title (ui s2) = TitleUrdu ∧
   card_word (ui s2) = card_word (ui s0)) ∧
  current_card s2 = current_card s0 ∧ same_store s0 s2.
Proof.
  intros sw s0 s1 s2.
  assert (Hl : to_learn sw.1 ≠ []) by not_empty.
  split; [done|].
  exact (flip_there_and_back 1 sw.1 sw.2 Hl).
Defined.

Lemma is_known_last_card_witness :
  let sw := __init__ 0 (fresh_disk [salam]) in
  let s' := (is_known 0 sw.1 sw.2).1 in
  let w' := (is_known 0 sw.1 sw.2).2 in
  (to_learn sw.1 = [salam] ∧ current_card sw.1 = salam ∧ salam ≠ ∅ ∧
   denied sw.2 = None) ∧
  to_learn s' = [] ∧
  PROGRESS_FILE w' = Some (to_csv []) ∧
  shown w' =
    shown sw.2 ++
    [Congratulations (original_count sw.1) (cards_learned_today sw.1 + 1)] ∧
  is_known 3 s' w' = (s', w').
Proof.
  intros sw s' w'.
  assert (Hl : to_learn sw.1 = [salam]) by by_evaluation.
  assert (Hc : current_card sw.1 = salam) by by_evaluation.
  assert (Hd : denied sw.2 = None) by by_evaluation.
  split; [by repeat split; try apply salam_fields|].
  exact (is_known_last_card 0 3 sw.1 sw.2 salam Hl Hc salam_fields Hd).
Defined.
